(** * webhook.js: payment / identity webhook intake and the fulfillment store

    A shallow embedding of [src/webhook.js] and the properties of its
    specification.  The source file holds three variants of the same
    service; the first one (lines 1-230, "production-ready, idempotent")
    is the reference and lives in [Module V1]; the second variant (lines
    231-384) lives in [Module V2] and the third (lines 385-547) in
    [Module V3].

    What is modelled, and how:
    - JavaScript values ([Js.value]): the JSON tree of an event, with
      truthiness, [||], property reads that yield [undefined] ([?.]) and
      property reads that throw a TypeError on [null]/[undefined];
    - the SQLite table [fulfillments] as the list of its rows in insertion
      order, a TEXT cell being [option string] ([None] is NULL); the
      statement [INSERT ... ON CONFLICT(checkout_session_id) DO UPDATE]
      with its UNIQUE checks (NULLs never collide, the conflict target is
      examined first, any other UNIQUE violation aborts the statement);
    - [async]/[await] with [try]/[catch] as a state-and-exception monad
      over the store and the list of outbound effects (HTTP call to the
      provisioner, SQL statement, mail, an error nobody handles); what a
      request meets outside the
      process (the provisioner's answer, the SMTP outcome, the clock) is
      an explicit [Outcomes] record;
    - the SDK and runtime functions the code calls but does not define
      ([stripe.webhooks.constructEvent], [JSON.stringify], the driver's
      text conversion of non-string parameters, the process environment)
      are the fields of the class [Platform].

    Console output and the [id] column (never read) are left out; the
    text of the first variant's mail is spelled out, the text of the
    third variant's mail is a [Platform] field.

    The file has four parts: the embedding; the vocabulary in which the
    properties are stated; sample inputs; the lemmas and theorems. *)

From Stdlib Require Import Ascii String List ZArith Bool Lia.
Import ListNotations.
Local Open Scope string_scope.
Local Open Scope Z_scope.
Local Open Scope list_scope.

(** ** JavaScript values *)

Module Js.

#[warnings="-register-all"]
Inductive value : Type :=
| Undefined
| Null
| Bool (b : bool)
| Num (n : Z)
| Str (s : string)
| Arr (items : list value)
| Obj (fields : list (string * value)).

(** ToBoolean: [undefined], [null], [false], [0] and [""] are falsy. *)
Definition truthy (v : value) : bool :=
  match v with
  | Undefined | Null => false
  | Bool b => b
  | Num n => negb (n =? 0)
  | Str s => negb (s =? "")%string
  | Arr _ | Obj _ => true
  end.

Definition nullish (v : value) : bool :=
  match v with
  | Undefined | Null => true
  | _ => false
  end.

(** [a || b] *)
Definition or (a b : value) : value := if truthy a then a else b.

Fixpoint lookup (k : string) (fields : list (string * value)) : value :=
  match fields with
  | [] => Undefined
  | (k', v) :: rest => if (k =? k')%string then v else lookup k rest
  end.

(** [o?.k]; also [o.k] once [o] is known not to be [null]/[undefined]. *)
Definition get (o : value) (k : string) : value :=
  match o with
  | Obj fields => lookup k fields
  | _ => Undefined
  end.

(** [a?.[0]] *)
Definition first (a : value) : value :=
  match a with
  | Arr (x :: _) => x
  | Obj fields => lookup "0" fields
  | Str (String c _) => Str (String c "")
  | _ => Undefined
  end.

(** [v === 'literal'] *)
Definition is_str (v : value) (lit : string) : bool :=
  match v with
  | Str s => (s =? lit)%string
  | _ => false
  end.

End Js.

Import Js.

Declare Scope js_scope.
Delimit Scope js_scope with js.
Infix "||" := Js.or (at level 50, left associativity) : js_scope.
Infix "?." := Js.get (at level 20, left associativity) : js_scope.

(** ** The table [fulfillments] *)

Module Sql.

Definition cell := option string.

(** Columns of [CREATE TABLE fulfillments] (lines 31-41), [id] left out. *)
Record Row : Type := mkRow {
  checkout_session_id : cell;
  verification_session_id : cell;
  customer_email : cell;
  product_id : cell;
  promo_code : cell;
  status : cell;
  payload : cell;
  created_at : Z
}.

Definition table := list Row.

(** Two cells collide under a UNIQUE constraint only when both are
    non-NULL and equal. *)
Definition same_key (a b : cell) : bool :=
  match a, b with
  | Some x, Some y => (x =? y)%string
  | _, _ => false
  end.

(** [col = 'literal'] inside a CASE: a NULL cell makes the test fail. *)
Definition cell_is (c : cell) (lit : string) : bool :=
  match c with
  | Some s => (s =? lit)%string
  | None => false
  end.

Definition COALESCE (a b : cell) : cell :=
  match a with
  | Some _ => a
  | None => b
  end.

Definition holds_checkout (k : cell) (t : table) : bool :=
  existsb (fun r => same_key k (checkout_session_id r)) t.

Definition holds_verification (k : cell) (t : table) : bool :=
  existsb (fun r => same_key k (verification_session_id r)) t.

(** The row whose [checkout_session_id] collides with [k], with the rows
    before and after it. *)
Fixpoint find_conflict (k : cell) (t : table) : option (table * Row * table) :=
  match t with
  | [] => None
  | r :: rest =>
      if same_key k (checkout_session_id r) then Some ([], r, rest)
      else match find_conflict k rest with
           | Some (before, hit, after) => Some (r :: before, hit, after)
           | None => None
           end
  end.

Section Statement.

(** Whether [verification_session_id] is declared UNIQUE, and the SET
    clause of DO UPDATE as a function of [excluded] and the stored row. *)
Variable unique_verification : bool.
Variable do_update : Row -> Row -> Row.

(** [INSERT INTO fulfillments (...) VALUES (...)
     ON CONFLICT(checkout_session_id) DO UPDATE SET ...]:
    [None] is SQLITE_CONSTRAINT, the table being left as it was. *)
Definition insert_on_conflict (excluded : Row) (t : table) : option table :=
  match find_conflict (checkout_session_id excluded) t with
  | Some (before, hit, after) =>
      let updated := do_update excluded hit in
      if unique_verification
         && holds_verification (verification_session_id updated) (before ++ after)
      then None
      else Some (before ++ updated :: after)
  | None =>
      if unique_verification
         && holds_verification (verification_session_id excluded) t
      then None
      else Some (t ++ [excluded])
  end.

End Statement.

(** A plain [INSERT] (third variant): only [checkout_session_id] is
    UNIQUE there. *)
Definition insert (new : Row) (t : table) : option table :=
  if holds_checkout (checkout_session_id new) t then None else Some (t ++ [new]).

(** First stored row with the given session identifier. *)
Definition by_checkout (k : string) (t : table) : option Row :=
  find (fun r => same_key (Some k) (checkout_session_id r)) t.

Definition by_verification (k : string) (t : table) : option Row :=
  find (fun r => same_key (Some k) (verification_session_id r)) t.

(** [SUM(e)] over the rows: NULL when there is no row. *)
Definition SUM (e : Row -> Z) (t : table) : option Z :=
  match t with
  | [] => None
  | _ => Some (fold_right (fun r acc => e r + acc) 0 t)
  end.

(** The schema's promise: no two rows share a non-NULL session id. *)
Fixpoint distinct (keys : list cell) : Prop :=
  match keys with
  | [] => True
  | k :: rest => existsb (same_key k) rest = false /\ distinct rest
  end.

Definition well_keyed (t : table) : Prop :=
  distinct (map checkout_session_id t) /\ distinct (map verification_session_id t).

(** Number of rows holding a given status. *)
Definition count_status (lit : string) (t : table) : Z :=
  Z.of_nat (length (filter (fun r => cell_is (status r) lit) t)).

End Sql.

Import Sql.

(** ** What the process is given *)

Inductive error : Type :=
| TypeError
| SQLITE_CONSTRAINT
| AxiosError
| SmtpError.

Class Platform : Type := {
  (** [stripe.webhooks.constructEvent(body, sig, secret)]; [inl message]
      when it throws *)
  constructEvent : string -> value -> value -> string + value;
  JSON_stringify : value -> string;
  (** text stored by the driver for a bound parameter that is not a string *)
  bound_text : value -> string;
  (** the engine's [ToString] on a value that is not a string, as a
      template literal applies it *)
  ToString : value -> string;
  (** the HTML of the third variant's mail, from the product id and the
      provisioner's answer (lines 504-511) *)
  product_html : value -> value -> string;
  (** [String(err)] *)
  error_text : error -> string;
  (** [process.env.NAME] *)
  process_env : string -> option string
}.

(** [process.env.NAME] as a JavaScript value. *)
Definition env `{Platform} (name : string) : value :=
  match process_env name with
  | Some s => Str s
  | None => Undefined
  end.

(** A value inside a template literal; the environment only holds
    strings. *)
Definition interpolate (v : value) : string :=
  match v with
  | Str s => s
  | _ => "undefined"
  end.

(** The cell a bound parameter is stored as. *)
Definition to_cell `{Platform} (v : value) : cell :=
  match v with
  | Undefined | Null => None
  | Str s => Some s
  | other => Some (bound_text other)
  end.

(** What one request meets outside the process. *)
Record Outcomes : Type := {
  (** [data] of the provisioner's 2xx answer; [None]: non-2xx or timeout *)
  relay : option value;
  smtp_ok : bool;
  (** CURRENT_TIMESTAMP, in seconds *)
  now : Z;
  (** [new Date().toISOString()] *)
  iso_now : string
}.

Inductive effect : Type :=
| HttpPost (url : string) (body : value) (headers : list (string * string)) (timeout : option Z)
| SqlRun (bound : Row)
| SqlGet (key : cell)
| Mail (from : string) (to : value) (subject html : string)
(** an error of a statement run without callback: the driver emits it as
    an [error] event, nobody listens, and the process exits *)
| Uncaught (e : error).

Record world : Type := mkWorld { db : table; log : list effect }.

Inductive answer : Type :=
| Text (s : string)
| Json (v : value)
| Empty.

Record Response : Type := mkResponse { code : Z; body : answer }.

Record Request : Type := {
  (** [req.headers['stripe-signature']], [Undefined] when the header is missing *)
  stripe_signature : value;
  raw_body : string
}.

(** ** Awaited computations *)

Definition M (A : Type) : Type := Outcomes -> world -> (error + A) * world.

Definition ret {A} (a : A) : M A := fun _ w => (inr a, w).

Definition throw {A} (e : error) : M A := fun _ w => (inl e, w).

Definition bind {A B} (m : M A) (k : A -> M B) : M B :=
  fun o w =>
    match m o w with
    | (inr a, w') => k a o w'
    | (inl e, w') => (inl e, w')
    end.

Definition try_catch {A} (m : M A) (handler : error -> M A) : M A :=
  fun o w =>
    match m o w with
    | (inl e, w') => handler e o w'
    | done => done
    end.

Definition ask : M Outcomes := fun o w => (inr o, w).

Definition emit (e : effect) : M unit :=
  fun _ w => (inr tt, {| db := db w; log := log w ++ [e] |}).

Notation "x <- m ;; k" := (bind m (fun x => k))
  (at level 61, m at next level, right associativity).
Notation "m ;;; k" := (bind m (fun _ => k))
  (at level 61, right associativity).

(** [o.k] where [o] may be [null] or [undefined]. *)
Definition member (o : value) (k : string) : M value :=
  if nullish o then throw TypeError else ret (get o k).

Definition axios_post (url : string) (body : value)
    (headers : list (string * string)) (timeout : option Z) : M value :=
  emit (HttpPost url body headers timeout) ;;;
  o <- ask ;;
  match relay o with
  | Some data => ret data
  | None => throw AxiosError
  end.

Definition transporter_sendMail (from : string) (to : value) (subject html : string) : M unit :=
  emit (Mail from to subject html) ;;;
  o <- ask ;;
  if smtp_ok o then ret tt else throw SmtpError.

Definition received : Response :=
  mkResponse 200 (Json (Obj [("received", Bool true)])).

Local Open Scope js_scope.

(** ** First variant (lines 1-230) *)

Module V1.
Section Code.
Context `{Platform}.

Definition WEBHOOK_SECRET : value := env "STRIPE_WEBHOOK_SECRET".
Definition PROVISION_URL : value := env "PROVISION_URL" || Str "https://vps.spraxxx.tv/provision".
Definition SADBLACK_TOKEN : value := env "SADBLACK_TOKEN" || Str "".
Definition MAIL_FROM : value := env "EMAIL_FROM" || Str "welcome@spraxxx.tv".

(** DO UPDATE SET of lines 50-56 *)
Definition do_update (excluded old : Row) : Row :=
  {| checkout_session_id := checkout_session_id old;
     verification_session_id :=
       COALESCE (verification_session_id excluded) (verification_session_id old);
     customer_email := COALESCE (customer_email excluded) (customer_email old);
     product_id := COALESCE (product_id excluded) (product_id old);
     promo_code := COALESCE (promo_code excluded) (promo_code old);
     status := status excluded;
     payload := payload excluded;
     created_at := created_at old |}.

(** The parameter array of lines 57-65 for a row that is an object, with
    the column default. *)
Definition parameters (timestamp : Z) (row : value) : Row :=
  {| checkout_session_id := to_cell (row?."checkout_session_id" || Null);
     verification_session_id := to_cell (row?."verification_session_id" || Null);
     customer_email := to_cell (row?."customer_email" || Null);
     product_id := to_cell (row?."product_id" || Null);
     promo_code := to_cell (row?."promo_code" || Null);
     status := to_cell (row?."status");
     payload := Some (JSON_stringify (row?."payload" || Obj []));
     created_at := timestamp |}.

(** [upsert(row)], lines 45-68.  The parameter array is built before
    [db.run] is called: for a [row] that is [null] or [undefined] reading
    [row.checkout_session_id] throws, the promise rejects with that
    TypeError and no statement is run. *)
Definition upsert (row : value) : M unit :=
  member row "checkout_session_id" ;;;
  o <- ask ;;
  let excluded := parameters (now o) row in
  emit (SqlRun excluded) ;;;
  fun _ w =>
    match insert_on_conflict true do_update excluded (db w) with
    | Some t => (inr tt, {| db := t; log := log w |})
    | None => (inl SQLITE_CONSTRAINT, w)
    end.

(** One character under the replacement callback of [escapeHTML]
    (line 229). *)
Definition entity (c : Ascii.ascii) : string :=
  if Ascii.eqb c "&"%char then "&amp;"
  else if Ascii.eqb c "<"%char then "&lt;"
  else if Ascii.eqb c ">"%char then "&gt;"
  else if Ascii.eqb c (Ascii.ascii_of_nat 34) then "&quot;"
  else if Ascii.eqb c "'"%char then "&#39;"
  else String c "".

(** [escapeHTML(s)], lines 228-230, on a string: each ampersand, angle
    bracket, double quote and single quote is replaced by its entity, the
    other characters are kept. *)
Fixpoint escapeHTML (s : string) : string :=
  match s with
  | EmptyString => EmptyString
  | String c rest => (entity c ++ escapeHTML rest)%string
  end.

(** [${v}] inside a template literal: a string is spliced as it is, any
    other value through the engine's [ToString]. *)
Definition spliced (v : value) : string :=
  match v with
  | Str s => s
  | other => ToString other
  end.

Definition dquote : string := String (Ascii.ascii_of_nat 34) "".

(** The three optional fragments of the welcome mail, lines 111-113. *)
Definition productURL (data : value) : string :=
  if truthy (data?."product_url")
  then ("<p>Access: <a href=" ++ dquote ++ spliced (data?."product_url")
        ++ dquote ++ ">" ++ spliced (data?."product_url") ++ "</a></p>")%string
  else "".

Definition wgConf (data : value) : string :=
  if truthy (data?."wg_conf")
  then ("<pre style=" ++ dquote
        ++ "background:#111;color:#fff;padding:8px;border-radius:6px;white-space:pre-wrap"
        ++ dquote ++ ">" ++ spliced (data?."wg_conf") ++ "</pre>")%string
  else "".

Definition creds (data : value) : string :=
  if truthy (data?."creds")
  then ("<p>Credentials: <code>" ++ escapeHTML (JSON_stringify (data?."creds"))
        ++ "</code></p>")%string
  else "".

(** The HTML handed to [sendMail], lines 118-121. *)
Definition welcome_mail (data : value) : string :=
  ("<p>Welcome to the Nation.</p>
     <p>Your identity has been verified and your profile is active.</p>
     " ++ productURL data ++ wgConf data ++ creds data ++ "
     <p>Questions? Reply to this email.</p>")%string.

Definition sendMail (to : value) (subject html : string) : M unit :=
  transporter_sendMail (interpolate MAIL_FROM) to subject html.

Definition provisionAndWelcome (args : value) : M unit :=
  let email := args?."email" in
  let verification_session_id := args?."verification_session_id" in
  let product_id := args?."product_id" in
  let promo_code := args?."promo_code" in
  let checkout_session_id := args?."checkout_session_id" in
  data <- axios_post (interpolate PROVISION_URL)
            (Obj [("email", email);
                  ("verification_session_id", verification_session_id);
                  ("product_id", product_id || Str "builder-pass");
                  ("promo_code", promo_code || Null);
                  ("checkout_session_id", checkout_session_id)])
            (("Content-Type", "application/json")
             :: if truthy SADBLACK_TOKEN
                then [("Authorization", ("Bearer " ++ interpolate SADBLACK_TOKEN)%string)]
                else [])
            (Some 20000) ;;
  o <- ask ;;
  upsert (Obj [("checkout_session_id", checkout_session_id);
               ("verification_session_id", verification_session_id);
               ("customer_email", email);
               ("product_id", product_id);
               ("promo_code", promo_code);
               ("status", Str "fulfilled");
               ("payload", Obj [("provision", data);
                                ("fulfilled_at", Str (iso_now o))])]) ;;;
  sendMail email "SPRAXXX Verification Complete — Your Access" (welcome_mail data).

(** The [try] block of lines 136-199. *)
Definition handle (event : value) : M Response :=
  ty <- member event "type" ;;
  if is_str ty "checkout.session.completed" then
    d <- member event "data" ;;
    s <- member d "object" ;;
    details <- member s "customer_details" ;;
    let email := details?."email" || s?."customer_email"
                 || s?."metadata"?."user_email" || Null in
    let product := s?."metadata"?."product_id" || Str "builder-pass" in
    let promo := s?."metadata"?."promo_code" || Null in
    let vsid := s?."metadata"?."verification_session_id" || Null in
    upsert (Obj [("checkout_session_id", s?."id");
                 ("verification_session_id", vsid);
                 ("customer_email", email);
                 ("product_id", product);
                 ("promo_code", promo);
                 ("status", if is_str (s?."payment_status") "paid"
                            then Str "paid" else Str "payment_not_paid");
                 ("payload", s)]) ;;;
    ret received
  else if is_str ty "identity.verification_session.verified" then
    d <- member event "data" ;;
    v <- member d "object" ;;
    metadata <- member v "metadata" ;;
    let email := metadata?."email"
                 || v?."last_verification_report"?."document"?."email" || Null in
    let product := metadata?."product_id" || Str "builder-pass" in
    let promo := metadata?."promo_code" || Null in
    upsert (Obj [("checkout_session_id", Null);
                 ("verification_session_id", v?."id");
                 ("customer_email", email);
                 ("product_id", product);
                 ("promo_code", promo);
                 ("status", Str "verified");
                 ("payload", v)]) ;;;
    provisionAndWelcome
      (Obj [("email", email);
            ("verification_session_id", v?."id");
            ("product_id", product);
            ("promo_code", promo);
            ("checkout_session_id", Null)]) ;;;
    ret received
  else if is_str ty "identity.verification_session.requires_input" then
    d <- member event "data" ;;
    v <- member d "object" ;;
    id <- member v "id" ;;
    upsert (Obj [("checkout_session_id", Null);
                 ("verification_session_id", id);
                 ("customer_email", v?."metadata"?."email" || Null);
                 ("product_id", v?."metadata"?."product_id" || Str "builder-pass");
                 ("promo_code", v?."metadata"?."promo_code" || Null);
                 ("status", Str "needs_input");
                 ("payload", v)]) ;;;
    ret received
  else
    ret received.

(** Lines 136-204: the [try] block and its [catch]. *)
Definition dispatch (event : value) : M Response :=
  try_catch (handle event)
            (fun _ => ret (mkResponse 500 (Text "Server error"))).

(** [app.post('/webhook', ...)], lines 126-205. *)
Definition webhook (req : Request) : M Response :=
  match constructEvent (raw_body req) (stripe_signature req) WEBHOOK_SECRET with
  | inl _ => ret (mkResponse 400 (Text "Invalid signature"))
  | inr event => dispatch event
  end.

(** The columns of the row the SELECT of lines 210-214 yields. *)
Definition health_row (timestamp : Z) (t : table) : list (string * value) :=
  let as_value (n : option Z) :=
    match n with
    | Some k => Num k
    | None => Null
    end in
  [("verified",
    as_value (SUM (fun r => if cell_is (status r) "verified" then 1 else 0) t));
   ("fulfilled",
    as_value (SUM (fun r => if cell_is (status r) "fulfilled" then 1 else 0) t));
   ("events_24h",
    as_value (SUM (fun r => if timestamp - 86400 <=? created_at r then 1 else 0) t))].

(** [app.get('/api/health', ...)], lines 208-221; [failed] is the [err]
    of the callback. *)
Definition api_health (failed : bool) (timestamp : Z) (t : table) : Response :=
  if failed then mkResponse 500 (Json (Obj [("ok", Bool false)]))
  else mkResponse 200 (Json (Obj (("ok", Bool true) :: health_row timestamp t))).

End Code.
End V1.

(** ** Second variant (lines 231-384) *)

Module V2.
Section Code.
Context `{Platform}.

(** This variant opens [./fulfillment.db] and never creates the table:
    whether its [verification_session_id] is UNIQUE is not in the source. *)
Variable unique_verification : bool.

Definition STRIPE_WH : value := env "STRIPE_WEBHOOK_SECRET".
Definition SADBLACK_URL : value :=
  env "SADBLACK_URL" || Str "https://sadblack.spraxxx.net/api/profiles/create".
Definition SADBLACK_TOKEN : value := env "SADBLACK_TOKEN".

(** DO UPDATE SET of lines 266-272 *)
Definition do_update (excluded old : Row) : Row :=
  {| checkout_session_id := checkout_session_id old;
     verification_session_id := verification_session_id excluded;
     customer_email := customer_email excluded;
     product_id := product_id excluded;
     promo_code := promo_code excluded;
     status := status excluded;
     payload := payload excluded;
     created_at := created_at old |}.

(** The parameter array of lines 273-281 for a row that is an object. *)
Definition parameters (timestamp : Z) (row : value) : Row :=
  {| checkout_session_id := to_cell (row?."checkout_session_id" || Null);
     verification_session_id := to_cell (row?."verification_session_id" || Null);
     customer_email := to_cell (row?."customer_email" || Null);
     product_id := to_cell (row?."product_id" || Null);
     promo_code := to_cell (row?."promo_code" || Null);
     status := to_cell (row?."status");
     payload := Some (JSON_stringify (row?."payload" || Obj []));
     created_at := timestamp |}.

(** [upsert(row)], lines 260-284; as in the first variant a [row] that is
    [null] or [undefined] makes the promise reject with a TypeError before
    any statement is run. *)
Definition upsert (row : value) : M unit :=
  member row "checkout_session_id" ;;;
  o <- ask ;;
  let excluded := parameters (now o) row in
  emit (SqlRun excluded) ;;;
  fun _ w =>
    match insert_on_conflict unique_verification do_update excluded (db w) with
    | Some t => (inr tt, {| db := t; log := log w |})
    | None => (inl SQLITE_CONSTRAINT, w)
    end.

Definition quote : string := String (Ascii.ascii_of_nat 34) "".

Definition notify (to : value) (subject html : string) : M unit :=
  transporter_sendMail (quote ++ "SPRAXXX Nation" ++ quote ++ " <verify@spraxxx.com>")%string
                       to subject html.

(** The [switch] of lines 295-375. *)
Definition handle (event : value) : M unit :=
  ty <- member event "type" ;;
  if is_str ty "checkout.session.completed" then
    d <- member event "data" ;;
    s <- member d "object" ;;
    id <- member s "id" ;;
    upsert (Obj [("checkout_session_id", id);
                 ("customer_email", s?."customer_details"?."email");
                 ("product_id", s?."metadata"?."product_id" || Str "builder-pass");
                 ("promo_code",
                  first (s?."total_details"?."breakdown"?."discounts")?."discount"?."id"
                  || Null);
                 ("status", Str "paid");
                 ("payload", s)])
  else if is_str ty "identity.verification_session.verified" then
    d <- member event "data" ;;
    v <- member d "object" ;;
    let email := v?."metadata"?."email" in
    id <- member v "id" ;;
    upsert (Obj [("checkout_session_id", Null);
                 ("verification_session_id", id);
                 ("customer_email", email);
                 ("product_id", v?."metadata"?."product_id" || Str "builder-pass");
                 ("promo_code", Null);
                 ("status", Str "verified");
                 ("payload", v)]) ;;;
    if truthy email then
      axios_post (interpolate SADBLACK_URL)
        (Obj [("email", email);
              ("verification_session_id", id);
              ("product_id", v?."metadata"?."product_id" || Str "builder-pass")])
        [("Authorization", ("Bearer " ++ interpolate SADBLACK_TOKEN)%string)]
        None ;;;
      o <- ask ;;
      upsert (Obj [("checkout_session_id", Null);
                   ("verification_session_id", id);
                   ("customer_email", email);
                   ("product_id", v?."metadata"?."product_id" || Str "builder-pass");
                   ("promo_code", Null);
                   ("status", Str "fulfilled");
                   ("payload", Obj [("fulfilled_at", Str (iso_now o))])]) ;;;
      notify email "SPRAXXX Verification Complete"
"<p>Welcome to the Nation.</p>
             <p>Your identity is verified and your SPRAXXX profile is now active.</p>
             <p>Next steps will arrive shortly from our Greeter desk.</p>"
    else ret tt
  else if is_str ty "identity.verification_session.requires_input" then
    d <- member event "data" ;;
    v <- member d "object" ;;
    id <- member v "id" ;;
    upsert (Obj [("checkout_session_id", Null);
                 ("verification_session_id", id);
                 ("customer_email", v?."metadata"?."email" || Null);
                 ("product_id", v?."metadata"?."product_id" || Str "builder-pass");
                 ("promo_code", Null);
                 ("status", Str "needs_input");
                 ("payload", v)])
  else
    ret tt.

(** Lines 294-383: [try], [catch]; closing the connection is not modelled. *)
Definition dispatch (event : value) : M Response :=
  try_catch (handle event ;;; ret received)
            (fun _ => ret (mkResponse 500 (Text "Server error"))).

(** [app.post('/webhook', ...)], lines 246-384. *)
Definition webhook (req : Request) : M Response :=
  match constructEvent (raw_body req) (stripe_signature req) STRIPE_WH with
  | inl _ => ret (mkResponse 400 (Text "Invalid signature"))
  | inr event => dispatch event
  end.

End Code.
End V2.

(** ** Third variant (lines 385-547) *)

Module V3.
Section Code.
Context `{Platform}.

Definition PROVISION_URL : value :=
  env "PROVISION_URL" || Str "https://vps.spraxxx.tv/provision".

(** [db.get('SELECT * FROM fulfillments WHERE checkout_session_id = ?', [key], ...)] *)
Definition select_by_checkout (key : value) : M (option Row) :=
  emit (SqlGet (to_cell key)) ;;;
  fun _ w => (inr (find (fun r => same_key (to_cell key) (checkout_session_id r)) (db w)), w).

(** [db.run('INSERT INTO fulfillments (...) VALUES (...)', [...], callback)]:
    the handler does not wait for the statement and never sees its error.
    With the callback of lines 497-500 a refused statement is only
    printed.  Without callback (lines 462-465 and 528-531) its error is
    emitted as an [error] event that has no listener: it is thrown as an
    uncaught exception and the process exits, after the handler has sent
    its answer. *)
Definition run_insert (callback : bool) (new : Row) : M unit :=
  emit (SqlRun new) ;;;
  fun _ w =>
    match insert new (db w) with
    | Some t => (inr tt, {| db := t; log := log w |})
    | None =>
        if callback then (inr tt, w)
        else (inr tt, {| db := db w; log := log w ++ [Uncaught SQLITE_CONSTRAINT] |})
    end.

(** [JSON.stringify(v)] as a bound parameter: [undefined] stays so. *)
Definition stringified (v : value) : cell :=
  match v with
  | Undefined => None
  | _ => Some (JSON_stringify v)
  end.

(** The [try] block of lines 470-524. *)
Definition fulfill (session : value) : M Response :=
  let verificationSessionId := session?."metadata"?."verification_session_id" in
  let productId := session?."metadata"?."product_id" || Str "prod_SPRA50" in
  let promoCode := session?."metadata"?."promo_code" || Null in
  let customerEmail := session?."customer_details"?."email"
                       || session?."metadata"?."user_email"
                       || session?."customer_email" in
  provisionData <-
    axios_post (interpolate PROVISION_URL)
      (Obj [("checkout_session_id", session?."id");
            ("verification_session_id", verificationSessionId);
            ("product_id", productId);
            ("promo_code", promoCode);
            ("customer_email", customerEmail);
            ("metadata", session?."metadata" || Obj [])])
      [("Content-Type", "application/json")]
      (Some 15000) ;;
  o <- ask ;;
  run_insert true
             {| checkout_session_id := to_cell (session?."id");
                verification_session_id := to_cell verificationSessionId;
                customer_email := to_cell customerEmail;
                product_id := to_cell productId;
                promo_code := to_cell promoCode;
                status := Some "fulfilled";
                payload := stringified provisionData;
                created_at := now o |} ;;;
  _ <- member provisionData "product_url" ;;
  transporter_sendMail
    (interpolate (env "EMAIL_FROM" || Str "welcome@spraxxx.tv"))
    customerEmail
    "Your SPRAXXX product — access & instructions"
    (product_html productId provisionData) ;;;
  ret received.

(** The callback of [db.get], lines 448-535, when the SELECT succeeds. *)
Definition process (session : value) (row : option Row) : M Response :=
  match row with
  | Some _ => ret received
  | None =>
      o <- ask ;;
      if negb (is_str (session?."payment_status") "paid") then
        run_insert false
          {| checkout_session_id := to_cell (session?."id");
             verification_session_id :=
               to_cell (session?."metadata"?."verification_session_id" || Null);
             customer_email :=
               to_cell (session?."customer_details"?."email"
                        || session?."customer_email" || Null);
             product_id := to_cell (session?."metadata"?."product_id" || Null);
             promo_code := to_cell (session?."metadata"?."promo_code" || Null);
             status := Some "payment_not_paid";
             payload := stringified session;
             created_at := now o |} ;;;
        ret received
      else
        try_catch (fulfill session)
          (fun fulfillErr =>
             run_insert false
               {| checkout_session_id := to_cell (session?."id");
                  verification_session_id :=
                    to_cell (session?."metadata"?."verification_session_id" || Null);
                  customer_email :=
                    to_cell (session?."customer_details"?."email"
                             || session?."customer_email" || Null);
                  product_id := to_cell (session?."metadata"?."product_id" || Null);
                  promo_code := to_cell (session?."metadata"?."promo_code" || Null);
                  status := Some "fulfillment_failed";
                  payload :=
                    stringified (Obj [("error", Str (error_text fulfillErr))]);
                  created_at := now o |} ;;;
             ret (mkResponse 500 Empty))
  end.

(** [app.post('/webhook', ...)], lines 431-541.  An error result is a
    rejection nobody catches: no response is sent. *)
Definition webhook (req : Request) : M Response :=
  match constructEvent (raw_body req) (stripe_signature req)
                       (env "STRIPE_WEBHOOK_SECRET") with
  | inl message => ret (mkResponse 400 (Text ("Webhook Error: " ++ message)%string))
  | inr event =>
      ty <- member event "type" ;;
      if is_str ty "checkout.session.completed" then
        d <- member event "data" ;;
        session <- member d "object" ;;
        id <- member session "id" ;;
        row <- select_by_checkout id ;;
        process session row
      else
        ret received
  end.

End Code.
End V3.

Local Close Scope js_scope.

(** ** Deliveries *)

(** The provider delivers events one after the other; each delivery meets
    its own outcomes. *)
Fixpoint deliver (handler : value -> M Response) (events : list (Outcomes * value))
    (w : world) : list (error + Response) * world :=
  match events with
  | [] => ([], w)
  | (o, event) :: rest =>
      let (r, w') := handler event o w in
      let (rs, w'') := deliver handler rest w' in
      (r :: rs, w'')
  end.

(** ** Vocabulary of the properties *)

(** The lifecycle of the specification: paid / payment_not_paid, then
    verified, then fulfilled. *)
Definition stage (s : cell) : option nat :=
  if cell_is s "paid" || cell_is s "payment_not_paid" then Some 0%nat
  else if cell_is s "verified" then Some 1%nat
  else if cell_is s "fulfilled" then Some 2%nat
  else None.

(** A status change that goes to an earlier stage of the lifecycle. *)
Definition moves_backward (old new : cell) : bool :=
  match stage old, stage new with
  | Some a, Some b => (b <? a)%nat
  | _, _ => false
  end.

(** The effect is a mail handed to the transport. *)
Definition is_mail (e : effect) : bool :=
  match e with
  | Mail _ _ _ _ => true
  | _ => false
  end.


(** The effect is a call to the provisioner. *)
Definition is_http (e : effect) : bool :=
  match e with
  | HttpPost _ _ _ _ => true
  | _ => false
  end.

(** A predicate on the table that a computation maintains. *)
Definition keeps (P : table -> Prop) {A} (m : M A) : Prop :=
  forall o w, P (db w) -> P (db (snd (m o w))).

(** [res.status(500).send('Server error')] *)
Definition server_error : Response := mkResponse 500 (Text "Server error").

(** The status is [paid] or [payment_not_paid]. *)
Definition payment (c : cell) : bool :=
  cell_is c "paid" || cell_is c "payment_not_paid".

(** A stored row and what a request made of it: left alone, or, for a row
    with a checkout id, rewritten with a payment status. *)
Definition rewritten (r r' : Row) : Prop :=
  r' = r \/ (checkout_session_id r <> None /\ payment (status r') = true).

(** The old rows, each possibly rewritten, followed by the new ones. *)
Definition extends (t t' : table) : Prop :=
  exists kept added, t' = kept ++ added /\ Forall2 rewritten t kept.

(** Rows that carry a checkout id hold a payment status. *)
Definition payment_rows (t : table) : Prop :=
  Forall (fun r => checkout_session_id r <> None -> payment (status r) = true) t.

(** A relation that holds between the table before and after a
    computation. *)
Definition moves (R : table -> table -> Prop) {A} (m : M A) : Prop :=
  forall o w, R (db w) (db (snd (m o w))).

(** The rows the handlers write: without checkout id, or with a payment
    status. *)
Definition tame `{Platform} (row : value) : Prop :=
  to_cell (Js.or (get row "checkout_session_id") Null) = None
  \/ payment (to_cell (get row "status")) = true.

(** The five characters [escapeHTML] replaces, and the four of them that
    open or close markup and attribute values. *)
Definition special (c : ascii) : bool :=
  Ascii.eqb c "&" || Ascii.eqb c "<" || Ascii.eqb c ">"
  || Ascii.eqb c (ascii_of_nat 34) || Ascii.eqb c "'".

Definition markup (c : ascii) : bool :=
  Ascii.eqb c "<" || Ascii.eqb c ">" || Ascii.eqb c (ascii_of_nat 34) || Ascii.eqb c "'".

(** Every character of the string satisfies the test. *)
Fixpoint all_chars (p : ascii -> bool) (s : string) : bool :=
  match s with
  | EmptyString => true
  | String c rest => p c && all_chars p rest
  end.

(** The effect is an SQL statement. *)
Definition is_sql (e : effect) : bool :=
  match e with
  | SqlRun _ | SqlGet _ => true
  | _ => false
  end.

(** A row with a product, a status and a payload. *)
Definition complete (r : Row) : Prop :=
  product_id r <> None /\ status r <> None /\ payload r <> None.

(** A stored row and what a request made of it: the same checkout id and
    the same creation time. *)
Definition anchored (r r' : Row) : Prop :=
  checkout_session_id r' = checkout_session_id r /\ created_at r' = created_at r.

(** The old rows, each still anchored, followed by the new ones. *)
Definition grows (t t' : table) : Prop :=
  exists kept added, t' = kept ++ added /\ Forall2 anchored t kept.

(** ** Sample platform, outcomes and events *)

(** A platform whose SDK gives the same verdict on every request; its
    other functions are constant. *)
Definition fixed_platform (verdict : string + value) : Platform :=
  {| constructEvent := fun _ _ _ => verdict;
     JSON_stringify := fun _ => "{}";
     bound_text := fun _ => "[object Object]";
     ToString := fun _ => "[object Object]";
     product_html := fun _ _ => "<p>Hey</p>";
     error_text := fun _ => "Error";
     process_env := fun _ => None |}.

Definition sample : Platform := fixed_platform (inl "unused").

(** Provisioner and transport both answer. *)
Definition quiet : Outcomes :=
  {| relay := Some (Obj [("product_url", Str "https://example.test/p")]);
     smtp_ok := true; now := 1000; iso_now := "2024-01-01T00:00:00.000Z" |}.

(** The provisioner does not answer with a 2xx. *)
Definition relay_down : Outcomes :=
  {| relay := None; smtp_ok := true; now := 2000; iso_now := "2024-01-01T00:10:00.000Z" |}.

(** The provisioner answers, the transport refuses the mail. *)
Definition mail_down : Outcomes :=
  {| relay := Some (Obj [("product_url", Str "https://example.test/p")]);
     smtp_ok := false; now := 3000; iso_now := "2024-01-01T00:20:00.000Z" |}.

Definition empty_world : world := {| db := []; log := [] |}.

Definition event_of (type : string) (object : value) : value :=
  Obj [("type", Str type); ("data", Obj [("object", object)])].

Definition unsigned_request : Request :=
  {| stripe_signature := Undefined; raw_body := "{}" |}.

Definition signed_request : Request :=
  {| stripe_signature := Str "t=1700000000,v1=5257a869"; raw_body := "{}" |}.

Definition paid_checkout : value :=
  event_of "checkout.session.completed"
    (Obj [("id", Str "cs_1"); ("payment_status", Str "paid");
          ("customer_details", Obj [("email", Str "ada@example.test")]);
          ("metadata", Obj [("promo_code", Str "X")])]).

Definition unpaid_checkout : value :=
  event_of "checkout.session.completed"
    (Obj [("id", Str "cs_1"); ("payment_status", Str "unpaid");
          ("customer_details", Obj [("email", Str "ada@example.test")])]).

Definition verified_vs_1 : value :=
  event_of "identity.verification_session.verified"
    (Obj [("id", Str "vs_1");
          ("metadata", Obj [("email", Str "ada@example.test")])]).

Definition requires_input_vs_1 : value :=
  event_of "identity.verification_session.requires_input"
    (Obj [("id", Str "vs_1");
          ("metadata", Obj [("email", Str "ada@example.test")])]).

(** The store after a first [requires_input] delivery for [vs_1]. *)
Definition after_requires_input : world :=
  snd (@V1.dispatch sample requires_input_vs_1 quiet empty_world).

(** The store after a paid checkout for [cs_1]. *)
Definition after_checkout : world := snd (@V1.dispatch sample paid_checkout quiet empty_world).

Definition provision_vs_2 : value :=
  Obj [("email", Str "ada@example.test");
       ("verification_session_id", Str "vs_2");
       ("product_id", Str "builder-pass");
       ("promo_code", Null);
       ("checkout_session_id", Null)].

Definition fulfilled_cs_1 : value :=
  Obj [("checkout_session_id", Str "cs_1"); ("promo_code", Str "X");
       ("status", Str "fulfilled")].

Definition paid_cs_1 : value :=
  Obj [("checkout_session_id", Str "cs_1"); ("promo_code", Null);
       ("customer_email", Str ""); ("status", Str "paid")].

Definition blank_status_cs_1 : value :=
  Obj [("checkout_session_id", Str "cs_1"); ("status", Str "")].

(** The store after [upsert(fulfilled_cs_1)], and after [upsert(paid_cs_1)]
    on top of it. *)
Definition after_fulfilled : world := snd (@V1.upsert sample fulfilled_cs_1 quiet empty_world).

Definition after_paid : world := snd (@V1.upsert sample paid_cs_1 quiet after_fulfilled).

(** An answer of the provisioner that carries credentials, and the mail
    text made from it. *)
Definition answer_with_creds : value :=
  Obj [("creds", Obj [("user", Str "<ada>")])].

Definition welcome_text_with_creds : string :=
  @V1.welcome_mail sample answer_with_creds.

(** A row for a new checkout [cs_2] that names the verification session
    [vs_1]. *)
Definition paid_cs_2_for_vs_1 : value :=
  Obj [("checkout_session_id", Str "cs_2");
       ("verification_session_id", Str "vs_1");
       ("status", Str "paid")].


(** A [verified] event whose metadata carries no e-mail address. *)
Definition verified_without_email : value :=
  event_of "identity.verification_session.verified"
    (Obj [("id", Str "vs_3"); ("metadata", Obj [("product_id", Str "builder-pass")])]).

(** A checkout event whose [data] has no [object]. *)
Definition checkout_without_object : value :=
  Obj [("type", Str "checkout.session.completed"); ("data", Obj [])].

(** Platforms whose SDK accepts every request as the paid checkout ([cs_1]),
    the unpaid checkout, the checkout without object. *)
Definition paid_platform : Platform := fixed_platform (inr paid_checkout).


Definition broken_platform : Platform := fixed_platform (inr checkout_without_object).

(** The row a paid checkout for [cs_1] leaves on the empty table. *)
Definition paid_row : Row :=
  {| checkout_session_id := Some "cs_1"; verification_session_id := None;
     customer_email := Some "ada@example.test"; product_id := Some "builder-pass";
     promo_code := Some "X"; status := Some "paid"; payload := Some "{}";
     created_at := 1000 |}.

(** ** Facts about the table *)

Section TableFacts.

Lemma same_key_sym (a b : cell) : same_key a b = same_key b a.
Proof.
  destruct a as [x|], b as [y|]; simpl; auto using String.eqb_sym.
Qed.

Lemma same_key_true (a b : cell) :
  same_key a b = true -> exists k, a = Some k /\ b = Some k.
Proof.
  destruct a as [x|], b as [y|]; simpl; try discriminate.
  intros E. apply String.eqb_eq in E. subst. eauto.
Qed.

Lemma same_key_refl (k : string) : same_key (Some k) (Some k) = true.
Proof. simpl. apply String.eqb_refl. Qed.

Lemma holds_checkout_map (k : cell) (t : table) :
  holds_checkout k t = existsb (same_key k) (map checkout_session_id t).
Proof.
  unfold holds_checkout. induction t as [|r t IH]; simpl; [reflexivity|].
  now rewrite IH.
Qed.

Lemma holds_verification_map (k : cell) (t : table) :
  holds_verification k t = existsb (same_key k) (map verification_session_id t).
Proof.
  unfold holds_verification. induction t as [|r t IH]; simpl; [reflexivity|].
  now rewrite IH.
Qed.

Lemma find_conflict_Some (k : cell) (t before after : table) (hit : Row) :
  find_conflict k t = Some (before, hit, after) ->
  t = before ++ hit :: after
  /\ same_key k (checkout_session_id hit) = true
  /\ holds_checkout k before = false.
Proof.
  revert before. induction t as [|r t IH]; simpl; intros before E; [discriminate|].
  destruct (same_key k (checkout_session_id r)) eqn:K.
  - inversion E; subst. auto.
  - destruct (find_conflict k t) as [[[b h] a]|]; [|discriminate].
    inversion E; subst. destruct (IH b eq_refl) as (-> & Hk & Hb).
    repeat split; auto. unfold holds_checkout in *. simpl. now rewrite K.
Qed.

Lemma find_conflict_None (k : cell) (t : table) :
  find_conflict k t = None -> holds_checkout k t = false.
Proof.
  unfold holds_checkout. induction t as [|r t IH]; simpl; intros E; [reflexivity|].
  destruct (same_key k (checkout_session_id r)); [discriminate|].
  destruct (find_conflict k t) as [[[b h] a]|]; [discriminate|]. auto.
Qed.

Lemma find_conflict_null (t : table) : find_conflict None t = None.
Proof. induction t as [|r t IH]; simpl; [reflexivity|]. now rewrite IH. Qed.

Lemma distinct_remove (l1 l2 : list cell) (k : cell) :
  distinct (l1 ++ k :: l2) -> distinct (l1 ++ l2).
Proof.
  induction l1 as [|x l1 IH]; simpl.
  - tauto.
  - intros [E D]. split; [|auto].
    rewrite existsb_app in *. simpl in E.
    apply orb_false_iff in E. destruct E as [E1 E2].
    apply orb_false_iff in E2. rewrite E1. simpl. tauto.
Qed.

Lemma distinct_place (l1 l2 : list cell) (k : cell) :
  distinct (l1 ++ l2) -> existsb (same_key k) (l1 ++ l2) = false ->
  distinct (l1 ++ k :: l2).
Proof.
  induction l1 as [|x l1 IH]; simpl.
  - tauto.
  - intros [E D] F. apply orb_false_iff in F. destruct F as [F1 F2].
    split; [|auto].
    rewrite existsb_app in *. simpl.
    apply orb_false_iff in E. destruct E as [E1 E2].
    rewrite E1, E2, same_key_sym, F1. reflexivity.
Qed.

Lemma distinct_replace (l1 l2 : list cell) (old new : cell) :
  distinct (l1 ++ old :: l2) -> existsb (same_key new) (l1 ++ l2) = false ->
  distinct (l1 ++ new :: l2).
Proof. intros D. apply distinct_place. eapply distinct_remove; eauto. Qed.

Lemma distinct_snoc (l : list cell) (k : cell) :
  distinct l -> existsb (same_key k) l = false -> distinct (l ++ [k]).
Proof.
  intros D E. apply distinct_place; now rewrite app_nil_r.
Qed.

(** Looking a checkout id up finds the row the conflict target finds. *)
Lemma by_checkout_conflict (k : string) (t before after : table) (hit : Row) :
  find_conflict (Some k) t = Some (before, hit, after) -> by_checkout k t = Some hit.
Proof.
  unfold by_checkout. revert before.
  induction t as [|r t IH]; cbn [find find_conflict]; intros before E; [discriminate|].
  destruct (same_key (Some k) (checkout_session_id r)).
  - now inversion E.
  - destruct (find_conflict (Some k) t) as [[[b h] a]|]; [|discriminate].
    inversion E; subst. eauto.
Qed.

Lemma by_checkout_absent (k : string) (t : table) :
  holds_checkout (Some k) t = false -> by_checkout k t = None.
Proof.
  unfold by_checkout, holds_checkout.
  induction t as [|r t IH]; cbn [find existsb]; [reflexivity|].
  destruct (same_key (Some k) (checkout_session_id r)); cbn [orb]; [discriminate|auto].
Qed.

Lemma by_checkout_middle (k : string) (before after : table) (r : Row) :
  holds_checkout (Some k) before = false ->
  checkout_session_id r = Some k ->
  by_checkout k (before ++ r :: after) = Some r.
Proof.
  unfold by_checkout, holds_checkout. intros Hb Hr.
  induction before as [|x before IH]; cbn [find existsb app] in *.
  - now rewrite Hr, same_key_refl.
  - apply orb_false_iff in Hb. destruct Hb as [-> Hb]. auto.
Qed.

Lemma by_verification_snoc (k : string) (t : table) (r : Row) :
  holds_verification (Some k) t = false ->
  verification_session_id r = Some k ->
  by_verification k (t ++ [r]) = Some r.
Proof.
  unfold by_verification, holds_verification. intros Ht Hr.
  induction t as [|x t IH]; cbn [find existsb app] in *.
  - now rewrite Hr, same_key_refl.
  - apply orb_false_iff in Ht. destruct Ht as [-> Ht]. auto.
Qed.

(** The statement of the first variant keeps both session-id columns
    free of duplicates. *)
Lemma insert_on_conflict_well_keyed (excluded : Row) (t t' : table) :
  well_keyed t ->
  insert_on_conflict true V1.do_update excluded t = Some t' ->
  well_keyed t'.
Proof.
  intros [Dc Dv]. unfold insert_on_conflict.
  destruct (find_conflict (checkout_session_id excluded) t) as [[[b h] a]|] eqn:F.
  - apply find_conflict_Some in F. destruct F as (-> & _ & _).
    cbn [andb]. destruct (holds_verification _ (b ++ a)) eqn:V; [discriminate|].
    intros E; inversion E; subst; clear E.
    rewrite holds_verification_map in V.
    unfold well_keyed. rewrite !map_app in *. cbn [map] in *.
    split; [exact Dc|].
    eapply distinct_replace; [exact Dv|exact V].
  - apply find_conflict_None in F. cbn [andb].
    destruct (holds_verification _ t) eqn:V; [discriminate|].
    intros E; inversion E; subst; clear E.
    rewrite holds_checkout_map in F. rewrite holds_verification_map in V.
    unfold well_keyed. rewrite !map_app. cbn [map].
    split; apply distinct_snoc; auto.
Qed.

(** [SUM] of a 0/1 indicator over a table that has rows is the number of
    rows the indicator selects. *)
Lemma SUM_indicator (p : Row -> bool) (r : Row) (t : table) :
  SUM (fun x => if p x then 1 else 0) (r :: t)
  = Some (Z.of_nat (length (filter p (r :: t)))).
Proof.
  unfold SUM. f_equal. generalize (r :: t) as l. clear.
  induction l as [|x l IH]; [reflexivity|].
  cbn [fold_right filter]. rewrite IH.
  destruct (p x); cbn [length]; lia.
Qed.

End TableFacts.

(** ** Facts about the handlers *)

Section HandlerFacts.
Context `{Platform}.

Lemma get_nullish (o : value) (k : string) : nullish o = true -> get o k = Undefined.
Proof. destruct o; simpl; congruence. Qed.

Lemma get_Str_object (o : value) (k s : string) : get o k = Str s -> nullish o = false.
Proof. destruct o; simpl; congruence. Qed.

Lemma get_Null_object (o : value) (k : string) : get o k = Null -> nullish o = false.
Proof. destruct o; simpl; congruence. Qed.

Lemma get_choice_object (o : value) (k : string) (b : bool) (s t : string) :
  get o k = (if b then Str s else Str t) -> nullish o = false.
Proof. destruct o, b; simpl; congruence. Qed.

Lemma truthy_Str (s : string) : s <> "" -> truthy (Str s) = true.
Proof. intros N. simpl. now destruct (String.eqb_spec s ""). Qed.

Lemma or_Str (s : string) (b : value) : s <> "" -> Js.or (Str s) b = Str s.
Proof. intros N. unfold Js.or. now rewrite truthy_Str. Qed.

Lemma or_falsy (a b : value) : truthy a = false -> Js.or a b = b.
Proof. intros F. unfold Js.or. now rewrite F. Qed.

Lemma or_Null_again (a : value) : Js.or (Js.or a Null) Null = Js.or a Null.
Proof. unfold Js.or. destruct (truthy a) eqn:T; [now rewrite T|reflexivity]. Qed.

Lemma to_cell_falsy (a : value) : truthy a = false -> to_cell (Js.or a Null) = None.
Proof. intros F. now rewrite or_falsy. Qed.

Lemma http_is_not_mail (e : effect) : is_http e = true -> is_mail e = false.
Proof. destruct e; cbn; congruence. Qed.


(** What one call of the first variant's [upsert] does. *)
Lemma upsert_run (row : value) (o : Outcomes) (w : world) :
  nullish row = false ->
  V1.upsert row o w =
  match insert_on_conflict true V1.do_update (V1.parameters (now o) row) (db w) with
  | Some t =>
      (inr tt, {| db := t; log := log w ++ [SqlRun (V1.parameters (now o) row)] |})
  | None =>
      (inl SQLITE_CONSTRAINT,
       {| db := db w; log := log w ++ [SqlRun (V1.parameters (now o) row)] |})
  end.
Proof.
  intros N. unfold V1.upsert, bind, member, ask, emit. rewrite N. cbn [ret db log].
  destruct (insert_on_conflict _ _ _ _); reflexivity.
Qed.

(** A row that is [null] or [undefined]: the promise rejects before any
    statement is run. *)
Lemma upsert_of_nothing (row : value) (o : Outcomes) (w : world) :
  nullish row = true -> V1.upsert row o w = (inl TypeError, w).
Proof. intros N. unfold V1.upsert, bind, member. now rewrite N. Qed.

(** *** Computations that maintain a property of the table *)

Lemma keeps_ret (P : table -> Prop) {A} (a : A) : keeps P (ret a).
Proof. intros o w. auto. Qed.

Lemma keeps_throw (P : table -> Prop) {A} (e : error) : keeps P (@throw A e).
Proof. intros o w. auto. Qed.

Lemma keeps_ask (P : table -> Prop) : keeps P ask.
Proof. intros o w. auto. Qed.

Lemma keeps_emit (P : table -> Prop) (e : effect) : keeps P (emit e).
Proof. intros o w. auto. Qed.

Lemma keeps_bind (P : table -> Prop) {A B} (m : M A) (k : A -> M B) :
  keeps P m -> (forall a, keeps P (k a)) -> keeps P (bind m k).
Proof.
  intros Hm Hk o w Hw. unfold bind. specialize (Hm o w Hw).
  destruct (m o w) as [[e|a] w']; cbn [snd] in *; [assumption|].
  now apply Hk.
Qed.

Lemma keeps_try_catch (P : table -> Prop) {A} (m : M A) (handler : error -> M A) :
  keeps P m -> (forall e, keeps P (handler e)) -> keeps P (try_catch m handler).
Proof.
  intros Hm Hh o w Hw. unfold try_catch. specialize (Hm o w Hw).
  destruct (m o w) as [[e|a] w']; cbn [snd] in *; [|assumption].
  now apply Hh.
Qed.

Lemma keeps_member (P : table -> Prop) (o : value) (k : string) : keeps P (member o k).
Proof. unfold member. destruct (nullish o); [apply keeps_throw|apply keeps_ret]. Qed.

Lemma keeps_axios_post (P : table -> Prop) url body headers timeout :
  keeps P (axios_post url body headers timeout).
Proof.
  unfold axios_post. apply keeps_bind; [apply keeps_emit|intros _].
  apply keeps_bind; [apply keeps_ask|intros o].
  destruct (relay o); [apply keeps_ret|apply keeps_throw].
Qed.

Lemma keeps_sendMail (P : table -> Prop) from to subject html :
  keeps P (transporter_sendMail from to subject html).
Proof.
  unfold transporter_sendMail. apply keeps_bind; [apply keeps_emit|intros _].
  apply keeps_bind; [apply keeps_ask|intros o].
  destruct (smtp_ok o); [apply keeps_ret|apply keeps_throw].
Qed.

Lemma keeps_upsert (row : value) : keeps well_keyed (V1.upsert row).
Proof.
  intros o w Hw. destruct (nullish row) eqn:N; [now rewrite upsert_of_nothing|].
  rewrite upsert_run by assumption.
  destruct (insert_on_conflict _ _ _ _) as [t|] eqn:E; cbn [snd db]; [|assumption].
  eapply insert_on_conflict_well_keyed; eauto.
Qed.

End HandlerFacts.

Create HintDb keeps.

#[local] Hint Resolve keeps_ret keeps_throw keeps_ask keeps_emit keeps_member
  keeps_axios_post keeps_sendMail keeps_upsert : keeps.

(** The row handed to [upsert] is an object as soon as one of its fields
    is known. *)
Ltac row_is_object :=
  match goal with
  | H : get ?r _ = Null |- nullish ?r = false => exact (get_Null_object _ _ H)
  | H : get ?r _ = Str _ |- nullish ?r = false => exact (get_Str_object _ _ _ H)
  | H : get ?r _ = (if _ then Str _ else Str _) |- nullish ?r = false =>
      exact (get_choice_object _ _ _ _ _ H)
  end.

Ltac keeps_step :=
  match goal with
  | |- keeps _ (bind _ _) => apply keeps_bind; [|intro]
  | |- keeps _ (try_catch _ _) => apply keeps_try_catch; [|intro]
  | |- keeps _ (if ?b then _ else _) => destruct b
  | |- keeps _ (match ?x with _ => _ end) => destruct x
  | |- keeps _ _ => solve [auto with keeps]
  end.

Section Invariant.
Context `{Platform}.

Lemma keeps_provisionAndWelcome (args : value) :
  keeps well_keyed (V1.provisionAndWelcome args).
Proof. unfold V1.provisionAndWelcome, V1.sendMail. repeat keeps_step. Qed.

Lemma keeps_dispatch (event : value) : keeps well_keyed (V1.dispatch event).
Proof.
  unfold V1.dispatch, V1.handle.
  repeat first [apply keeps_provisionAndWelcome | keeps_step].
Qed.

(** No request ever makes two rows share a checkout session id or a
    verification session id. *)
Lemma webhook_well_keyed (req : Request) : keeps well_keyed (V1.webhook req).
Proof.
  unfold V1.webhook. destruct (constructEvent _ _ _); [auto with keeps|].
  apply keeps_dispatch.
Qed.

(** X1.  Whatever events are delivered, in whatever order and whatever the
    provisioner and the transport do, a table in which no two rows share
    a checkout id or a verification id is left in that state. *)
Lemma deliver_well_keyed (events : list (Outcomes * value)) (w : world) :
  well_keyed (db w) -> well_keyed (db (snd (deliver V1.dispatch events w))).
Proof.
  revert w. induction events as [|[o event] rest IH]; intros w Hw; [exact Hw|].
  cbn [deliver]. pose proof (keeps_dispatch event o w Hw) as K.
  destruct (V1.dispatch event o w) as [r w']. cbn [snd] in K.
  specialize (IH w' K). destruct (deliver V1.dispatch rest w') as [rs w''].
  exact IH.
Qed.

End Invariant.

(** ** The statement on a row without checkout id *)

Section Statements.

Variable f : Row -> Row -> Row.

Lemma insert_null_held (e : Row) (t : table) :
  checkout_session_id e = None ->
  holds_verification (verification_session_id e) t = true ->
  insert_on_conflict true f e t = None.
Proof.
  intros C V. unfold insert_on_conflict.
  now rewrite C, find_conflict_null, V.
Qed.

Lemma insert_null_fresh (u : bool) (e : Row) (t : table) :
  checkout_session_id e = None ->
  holds_verification (verification_session_id e) t = false ->
  insert_on_conflict u f e t = Some (t ++ [e]).
Proof.
  intros C V. unfold insert_on_conflict.
  rewrite C, find_conflict_null, V. now rewrite andb_false_r.
Qed.

(** What the statement leaves under a checkout id, when the SET clause
    keeps the stored checkout id. *)
Lemma insert_on_conflict_lookup (u : bool) (e : Row) (t t' : table) (k : string) :
  (forall x old, checkout_session_id (f x old) = checkout_session_id old) ->
  checkout_session_id e = Some k ->
  insert_on_conflict u f e t = Some t' ->
  match by_checkout k t with
  | Some old => by_checkout k t' = Some (f e old)
  | None => by_checkout k t' = Some e /\ t' = t ++ [e]
  end.
Proof.
  intros Hf C. unfold insert_on_conflict. rewrite C.
  destruct (find_conflict (Some k) t) as [[[b h] a]|] eqn:F.
  - rewrite (by_checkout_conflict _ _ _ _ _ F).
    apply find_conflict_Some in F. destruct F as (-> & K & B).
    destruct (u && _); [discriminate|]. intros E; inversion E; subst.
    apply by_checkout_middle; [exact B|].
    rewrite Hf. apply same_key_true in K. destruct K as (k' & E1 & E2).
    congruence.
  - apply find_conflict_None in F. rewrite (by_checkout_absent _ _ F).
    destruct (u && _); [discriminate|]. intros E; inversion E; subst.
    split; [|reflexivity].
    replace (t ++ [e]) with (t ++ e :: []) by reflexivity.
    now apply by_checkout_middle.
Qed.

End Statements.

Lemma holds_verification_others (k : cell) (before after : table) (r : Row) :
  holds_verification k (before ++ r :: after) = false ->
  holds_verification k (before ++ after) = false.
Proof.
  unfold holds_verification. rewrite !existsb_app. cbn [existsb].
  intros E. apply orb_false_iff in E. destruct E as [-> E].
  apply orb_false_iff in E. tauto.
Qed.

(** On a table without duplicates, the verification id of a row is held
    by no other row. *)
Lemma own_key_not_elsewhere (before after : table) (r : Row) :
  distinct (map verification_session_id (before ++ r :: after)) ->
  holds_verification (verification_session_id r) (before ++ after) = false.
Proof.
  rewrite holds_verification_map, !map_app. cbn [map].
  induction before as [|x b IH]; cbn [map app distinct].
  - tauto.
  - intros [E D]. rewrite existsb_app in E. cbn [existsb] in E.
    apply orb_false_iff in E. destruct E as [E1 E2].
    apply orb_false_iff in E2. destruct E2 as [E2 E3].
    cbn [existsb]. rewrite same_key_sym, E2. auto.
Qed.

(** On a well-keyed table, the first variant's statement is accepted as
    soon as no row holds the incoming verification id. *)
Lemma insert_on_conflict_accepts (e : Row) (t : table) :
  well_keyed t ->
  holds_verification (verification_session_id e) t = false ->
  exists t', insert_on_conflict true V1.do_update e t = Some t'.
Proof.
  intros [_ Dv] V. unfold insert_on_conflict.
  destruct (find_conflict (checkout_session_id e) t) as [[[b h] a]|] eqn:F.
  - apply find_conflict_Some in F. destruct F as (-> & _ & _).
    cbn [andb V1.do_update verification_session_id].
    destruct (verification_session_id e) as [v|] eqn:Ev; cbn [COALESCE].
    + rewrite (holds_verification_others _ _ _ _ V). eauto.
    + rewrite (own_key_not_elsewhere _ _ _ Dv). eauto.
  - cbn [andb]. rewrite V. eauto.
Qed.

(** Running the statement again with the same cells changes nothing. *)
Lemma insert_on_conflict_again (e e' : Row) (t t' : table) (k : string) :
  well_keyed t ->
  checkout_session_id e = Some k ->
  insert_on_conflict true V1.do_update e t = Some t' ->
  checkout_session_id e' = checkout_session_id e ->
  verification_session_id e' = verification_session_id e ->
  customer_email e' = customer_email e ->
  product_id e' = product_id e ->
  promo_code e' = promo_code e ->
  status e' = status e ->
  payload e' = payload e ->
  insert_on_conflict true V1.do_update e' t' = Some t'.
Proof.
  intros Hw C E Ec Ev Em Ep Eo Es Ea.
  pose proof (insert_on_conflict_well_keyed _ _ _ Hw E) as [_ Dv'].
  pose proof (insert_on_conflict_lookup V1.do_update true _ _ _ k
                (fun _ _ => eq_refl) C E) as L.
  assert (X : exists x, by_checkout k t' = Some x /\ V1.do_update e' x = x).
  { destruct (by_checkout k t) as [old|].
    - eexists. split; [exact L|].
      unfold V1.do_update. cbn [checkout_session_id verification_session_id
        customer_email product_id promo_code status payload created_at].
      rewrite Ev, Em, Ep, Eo, Es, Ea.
      destruct (verification_session_id e), (customer_email e), (product_id e),
        (promo_code e); reflexivity.
    - destruct L as [L _]. exists e. split; [exact L|].
      destruct e. cbn in *. subst. unfold V1.do_update.
      cbn [checkout_session_id verification_session_id
        customer_email product_id promo_code status payload created_at].
      repeat match goal with
             | |- context [COALESCE ?c ?c] => destruct c; cbn [COALESCE]
             end; reflexivity. }
  destruct X as (x & Lx & Ix).
  unfold insert_on_conflict. rewrite Ec, C.
  destruct (find_conflict (Some k) t') as [[[b h] a]|] eqn:F.
  - pose proof (by_checkout_conflict _ _ _ _ _ F) as B.
    rewrite Lx in B. inversion B; subst h.
    apply find_conflict_Some in F. destruct F as (Et & _ & _).
    rewrite Ix. rewrite Et in Dv'. rewrite (own_key_not_elsewhere _ _ _ Dv').
    cbn [andb]. now rewrite Et.
  - apply find_conflict_None in F. rewrite (by_checkout_absent _ _ F) in Lx.
    discriminate.
Qed.

(** ** The three handled event types, path by path *)

Section Paths.
Context `{Platform}.

Lemma nullish_parent (o : value) (k : string) :
  nullish (get o k) = false -> nullish o = false.
Proof.
  intros N. destruct (nullish o) eqn:E; [|reflexivity].
  rewrite (get_nullish _ _ E) in N. discriminate.
Qed.

Ltac enter Hty Ns :=
  pose proof (get_Str_object _ _ _ Hty) as Ne;
  pose proof (nullish_parent _ _ Ns) as Nd;
  match goal with
  | |- context [V1.dispatch ?event ?o ?w] =>
      remember (V1.dispatch event o w) as run eqn:R;
      unfold V1.dispatch, try_catch, V1.handle, bind, member in R;
      rewrite Ne in R; cbn [ret] in R; rewrite Hty in R;
      cbn -[V1.upsert V1.provisionAndWelcome] in R; rewrite Nd in R;
      cbn -[V1.upsert V1.provisionAndWelcome] in R; rewrite Ns in R;
      cbn -[V1.upsert V1.provisionAndWelcome] in R
  end.

(** [checkout.session.completed]: one upsert, then the receipt. *)
Lemma checkout_path (o : Outcomes) (w : world) (event : value) :
  get event "type" = Str "checkout.session.completed" ->
  nullish (get (get event "data") "object") = false ->
  exists row,
    V1.dispatch event o w
    = match V1.upsert row o w with
      | (inr _, w') => (inr received, w')
      | (inl _, w') => (inr server_error, w')
      end
    /\ get row "checkout_session_id" = get (get (get event "data") "object") "id"
    /\ get row "verification_session_id"
       = Js.or (get (get (get (get event "data") "object") "metadata")
                     "verification_session_id") Null
    /\ get row "status"
       = (if is_str (get (get (get event "data") "object") "payment_status") "paid"
          then Str "paid" else Str "payment_not_paid")
    /\ get row "customer_email"
       = (let s := get (get event "data") "object" in
          Js.or (Js.or (Js.or (get (get s "customer_details") "email")
                              (get s "customer_email"))
                       (get (get s "metadata") "user_email"))
                Null)
    /\ get row "product_id"
       = Js.or (get (get (get (get event "data") "object") "metadata") "product_id")
               (Str "builder-pass")
    /\ get row "promo_code"
       = Js.or (get (get (get (get event "data") "object") "metadata") "promo_code")
               Null
    /\ get row "payload" = get (get event "data") "object".
Proof.
  intros Hty Ns. enter Hty Ns.
  match type of R with context [V1.upsert ?r o w] => exists r end.
  split; [|repeat split; reflexivity].
  subst run. destruct (V1.upsert _ o w) as [[e|[]] w']; reflexivity.
Qed.

(** [identity.verification_session.verified]: the upsert, then
    [provisionAndWelcome], then the receipt. *)
Lemma verified_path (o : Outcomes) (w : world) (event : value) :
  get event "type" = Str "identity.verification_session.verified" ->
  nullish (get (get event "data") "object") = false ->
  exists row args,
    V1.dispatch event o w
    = match V1.upsert row o w with
      | (inr _, w') =>
          match V1.provisionAndWelcome args o w' with
          | (inr _, w'') => (inr received, w'')
          | (inl _, w'') => (inr server_error, w'')
          end
      | (inl _, w') => (inr server_error, w')
      end
    /\ get row "checkout_session_id" = Null
    /\ get row "verification_session_id" = get (get (get event "data") "object") "id"
    /\ get row "status" = Str "verified"
    /\ get args "checkout_session_id" = Null
    /\ get args "verification_session_id" = get (get (get event "data") "object") "id".
Proof.
  intros Hty Ns. enter Hty Ns.
  match type of R with
  | context [V1.upsert ?r o w] =>
      match type of R with
      | context [V1.provisionAndWelcome ?a] => exists r, a
      end
  end.
  split; [|repeat split; reflexivity].
  subst run. destruct (V1.upsert _ o w) as [[e|[]] w']; [reflexivity|].
  destruct (V1.provisionAndWelcome _ o w') as [[e|[]] w'']; reflexivity.
Qed.

(** [identity.verification_session.requires_input]: one upsert. *)
Lemma requires_input_path (o : Outcomes) (w : world) (event : value) :
  get event "type" = Str "identity.verification_session.requires_input" ->
  nullish (get (get event "data") "object") = false ->
  exists row,
    V1.dispatch event o w
    = match V1.upsert row o w with
      | (inr _, w') => (inr received, w')
      | (inl _, w') => (inr server_error, w')
      end
    /\ get row "checkout_session_id" = Null
    /\ get row "verification_session_id" = get (get (get event "data") "object") "id"
    /\ get row "status" = Str "needs_input".
Proof.
  intros Hty Ns. enter Hty Ns.
  match type of R with context [V1.upsert ?r o w] => exists r end.
  split; [|repeat split; reflexivity].
  subst run. destruct (V1.upsert _ o w) as [[e|[]] w']; reflexivity.
Qed.

(** [provisionAndWelcome], step by step: the call to the provisioner,
    the statement that records [fulfilled], the mail. *)
Lemma provisionAndWelcome_run (args : value) (o : Outcomes) (w : world) :
  exists post row mail,
    V1.provisionAndWelcome args o w
    = match relay o with
      | None => (inl AxiosError, {| db := db w; log := log w ++ [post] |})
      | Some data =>
          let write := V1.parameters (now o) (row data) in
          match insert_on_conflict true V1.do_update write (db w) with
          | None =>
              (inl SQLITE_CONSTRAINT,
               {| db := db w; log := log w ++ [post; SqlRun write] |})
          | Some t =>
              (if smtp_ok o then inr tt else inl SmtpError,
               {| db := t; log := log w ++ [post; SqlRun write; mail data] |})
          end
      end
    /\ is_http post = true
    /\ (forall data, is_mail (mail data) = true)
    /\ (forall data,
          get (row data) "status" = Str "fulfilled"
          /\ get (row data) "checkout_session_id" = get args "checkout_session_id"
          /\ get (row data) "verification_session_id"
             = get args "verification_session_id").
Proof.
  remember (V1.provisionAndWelcome args o w) as run eqn:R.
  unfold V1.provisionAndWelcome, V1.sendMail, axios_post, transporter_sendMail in R.
  unfold bind, ask, emit in R. cbn zeta in R. cbn [db log] in R.
  match type of R with
  | context [HttpPost ?u ?b ?h ?t] => exists (HttpPost u b h t)
  end.
  exists (fun data => Obj [("checkout_session_id", get args "checkout_session_id");
                           ("verification_session_id", get args "verification_session_id");
                           ("customer_email", get args "email");
                           ("product_id", get args "product_id");
                           ("promo_code", get args "promo_code");
                           ("status", Str "fulfilled");
                           ("payload", Obj [("provision", data);
                                            ("fulfilled_at", Str (iso_now o))])]).
  match type of R with
  | context [Mail ?a ?b ?c _] => exists (fun data => Mail a b c (V1.welcome_mail data))
  end.
  split; [|repeat split; reflexivity].
  subst run. destruct (relay o) as [data|]; [|reflexivity].
  cbn zeta. unfold ret, throw. cbn beta iota. rewrite upsert_run by reflexivity.
  cbn [db log].
  destruct (insert_on_conflict _ _ _ _) as [t|]; cbn [db log].
  - rewrite <- !app_assoc. cbn [app]. destruct (smtp_ok o); reflexivity.
  - rewrite <- !app_assoc. reflexivity.
Qed.

(** The same steps with the row and the mail spelled out: what is stored
    is the row of lines 100-108, what is mailed is the text of lines
    118-121, to the address the caller gave. *)
Lemma provisionAndWelcome_steps (args : value) (o : Outcomes) (w : world) :
  exists post from subject,
    is_http post = true
    /\ V1.provisionAndWelcome args o w
       = match relay o with
         | None => (inl AxiosError, {| db := db w; log := log w ++ [post] |})
         | Some data =>
             let write :=
               V1.parameters (now o)
                 (Obj [("checkout_session_id", get args "checkout_session_id");
                       ("verification_session_id", get args "verification_session_id");
                       ("customer_email", get args "email");
                       ("product_id", get args "product_id");
                       ("promo_code", get args "promo_code");
                       ("status", Str "fulfilled");
                       ("payload", Obj [("provision", data);
                                        ("fulfilled_at", Str (iso_now o))])]) in
             match insert_on_conflict true V1.do_update write (db w) with
             | None =>
                 (inl SQLITE_CONSTRAINT,
                  {| db := db w; log := log w ++ [post; SqlRun write] |})
             | Some t =>
                 (if smtp_ok o then inr tt else inl SmtpError,
                  {| db := t;
                     log := log w ++ [post; SqlRun write;
                                      Mail from (get args "email") subject
                                           (V1.welcome_mail data)] |})
             end
         end.
Proof.
  remember (V1.provisionAndWelcome args o w) as run eqn:R.
  unfold V1.provisionAndWelcome, V1.sendMail, axios_post, transporter_sendMail in R.
  unfold bind, ask, emit in R. cbn zeta in R. cbn [db log] in R.
  match type of R with
  | context [HttpPost ?u ?b ?h ?t] => exists (HttpPost u b h t)
  end.
  match type of R with
  | context [Mail ?a _ ?c _] => exists a, c
  end.
  split; [reflexivity|].
  subst run. destruct (relay o) as [data|]; [|reflexivity].
  cbn zeta. unfold ret, throw. cbn beta iota. rewrite upsert_run by reflexivity.
  cbn [db log].
  destruct (insert_on_conflict _ _ _ _) as [t|]; cbn [db log].
  - rewrite <- !app_assoc. cbn [app]. destruct (smtp_ok o); reflexivity.
  - rewrite <- !app_assoc. reflexivity.
Qed.

End Paths.

(** ** Signature failures and unhandled event types *)

Section Gate.
Context `{Platform}.

(** C5.  A request whose signature header is invalid or missing, that is
    one on which [constructEvent] throws, is answered with HTTP 400; the
    store and the list of effects are exactly what they were: no statement
    was run, no call made, no mail sent, no handler entered.  This holds
    in each of the three variants (the third one puts the SDK's message
    in the body). *)
Theorem invalid_signature_rejected (unique_verification : bool) (req : Request)
    (o : Outcomes) (w : world) (message : string) :
  constructEvent (raw_body req) (stripe_signature req) (env "STRIPE_WEBHOOK_SECRET")
  = inl message ->
  V1.webhook req o w = (inr (mkResponse 400 (Text "Invalid signature")), w)
  /\ V2.webhook unique_verification req o w
     = (inr (mkResponse 400 (Text "Invalid signature")), w)
  /\ V3.webhook req o w
     = (inr (mkResponse 400 (Text ("Webhook Error: " ++ message)%string)), w).
Proof.
  intros E. unfold V1.webhook, V2.webhook, V3.webhook.
  unfold V1.WEBHOOK_SECRET, V2.STRIPE_WH. rewrite E. auto.
Qed.

(** C8.  A validly signed event whose type is none of
    [checkout.session.completed], [identity.verification_session.verified],
    [identity.verification_session.requires_input] is acknowledged with
    HTTP 200 and the receipt [{received: true}], and nothing else happens:
    the store is unchanged and no statement, provisioning call or mail is
    issued.  All three variants agree (the third handles a single type). *)
Theorem unhandled_event_acknowledged (unique_verification : bool) (req : Request)
    (o : Outcomes) (w : world) (event : value) :
  constructEvent (raw_body req) (stripe_signature req) (env "STRIPE_WEBHOOK_SECRET")
  = inr event ->
  nullish event = false ->
  is_str (get event "type") "checkout.session.completed" = false ->
  is_str (get event "type") "identity.verification_session.verified" = false ->
  is_str (get event "type") "identity.verification_session.requires_input" = false ->
  V1.webhook req o w = (inr received, w)
  /\ V2.webhook unique_verification req o w = (inr received, w)
  /\ V3.webhook req o w = (inr received, w).
Proof.
  intros E N T1 T2 T3. unfold V1.webhook, V2.webhook, V3.webhook.
  unfold V1.WEBHOOK_SECRET, V2.STRIPE_WH. rewrite E.
  unfold V1.dispatch, V2.dispatch, try_catch, V1.handle, V2.handle, bind, member.
  rewrite N. cbn [ret]. rewrite T1, T2, T3. auto.
Qed.

End Gate.

Lemma invalid_signature_rejected_witness :
  let P := fixed_platform (inl "No stripe-signature header value was provided.") in
  @V1.webhook P unsigned_request quiet empty_world
  = (inr (mkResponse 400 (Text "Invalid signature")), empty_world)
  /\ @V2.webhook P true unsigned_request quiet empty_world
     = (inr (mkResponse 400 (Text "Invalid signature")), empty_world)
  /\ @V3.webhook P unsigned_request quiet empty_world
     = (inr (mkResponse 400
               (Text "Webhook Error: No stripe-signature header value was provided.")),
        empty_world).
Proof.
  intros P.
  apply (@invalid_signature_rejected P true unsigned_request quiet empty_world
           "No stripe-signature header value was provided.").
  reflexivity.
Defined.

Lemma unhandled_event_acknowledged_witness :
  let event := event_of "customer.created" (Obj [("id", Str "cus_1")]) in
  let P := fixed_platform (inr event) in
  @V1.webhook P signed_request quiet empty_world = (inr received, empty_world)
  /\ @V2.webhook P false signed_request quiet empty_world = (inr received, empty_world)
  /\ @V3.webhook P signed_request quiet empty_world = (inr received, empty_world).
Proof.
  intros event P.
  apply (@unhandled_event_acknowledged P false signed_request quiet empty_world event);
    reflexivity.
Defined.

(** ** [checkout.session.completed] *)

Section Checkout.
Context `{Platform}.

Lemma do_update_keeps_checkout (x old : Row) :
  checkout_session_id (V1.do_update x old) = checkout_session_id old.
Proof. reflexivity. Qed.

(** C6, for the first variant.  Take a [checkout.session.completed] event
    whose session carries a non-empty string [id].  Whenever the handler
    acknowledges it, the row stored under that checkout id has status
    [paid] if the session's [payment_status] is the string ["paid"], and
    [payment_not_paid] for any other payment status.  And the handler does
    acknowledge it as soon as, on a well-keyed table, no row holds the
    verification id given in the session's metadata. *)
Theorem checkout_completed_status (o : Outcomes) (w : world) (event : value)
    (id : string) :
  get event "type" = Str "checkout.session.completed" ->
  get (get (get event "data") "object") "id" = Str id ->
  id <> "" ->
  let s := get (get event "data") "object" in
  let run := V1.dispatch event o w in
  (well_keyed (db w) ->
   holds_verification
     (to_cell (Js.or (get (get s "metadata") "verification_session_id") Null))
     (db w) = false ->
   fst run = inr received)
  /\ (fst run = inr received ->
      exists row,
        by_checkout id (db (snd run)) = Some row
        /\ status row = Some (if is_str (get s "payment_status") "paid"
                              then "paid" else "payment_not_paid")).
Proof.
  intros Hty Hid Hne s run.
  pose proof (get_Str_object _ _ _ Hid) as Ns.
  destruct (checkout_path o w event Hty Ns) as (row & R & Rc & Rv & Rs & _).
  subst run. rewrite R, upsert_run by row_is_object. clear R.
  assert (C : checkout_session_id (V1.parameters (now o) row) = Some id).
  { cbn [V1.parameters checkout_session_id]. rewrite Rc, Hid, or_Str by assumption.
    reflexivity. }
  assert (S : status (V1.parameters (now o) row)
              = Some (if is_str (get s "payment_status") "paid"
                      then "paid" else "payment_not_paid")).
  { cbn [V1.parameters status]. rewrite Rs. subst s.
    now destruct (is_str _ "paid"). }
  split.
  - intros Hw Hv.
    destruct (insert_on_conflict_accepts (V1.parameters (now o) row) (db w) Hw)
      as (t' & ->); [|reflexivity].
    cbn [V1.parameters verification_session_id]. rewrite Rv, or_Null_again. exact Hv.
  - destruct (insert_on_conflict _ _ _ _) as [t'|] eqn:E; cbn [fst snd db];
      [intros _|discriminate].
    pose proof (insert_on_conflict_lookup V1.do_update true _ _ _ id
                  do_update_keeps_checkout C E) as L.
    destruct (by_checkout id (db w)) as [old|].
    + eexists. split; [exact L|]. exact S.
    + destruct L as [L _]. eexists. split; [exact L|]. exact S.
Qed.

(** X2.  Redelivery of a checkout event (the part of C1 that holds): delivering an
    acknowledged [checkout.session.completed] event again, whatever the
    second delivery meets, is acknowledged again and leaves the table as
    the first delivery left it. *)
Lemma checkout_redelivery_changes_nothing (o1 o2 : Outcomes) (w : world)
    (event : value) (id : string) :
  get event "type" = Str "checkout.session.completed" ->
  get (get (get event "data") "object") "id" = Str id ->
  id <> "" ->
  well_keyed (db w) ->
  fst (V1.dispatch event o1 w) = inr received ->
  let w1 := snd (V1.dispatch event o1 w) in
  fst (V1.dispatch event o2 w1) = inr received
  /\ db (snd (V1.dispatch event o2 w1)) = db w1.
Proof.
  intros Hty Hid Hne Hw.
  pose proof (get_Str_object _ _ _ Hid) as Ns.
  destruct (checkout_path o1 w event Hty Ns)
    as (r1 & R1 & C1 & V1 & S1 & M1 & P1 & O1 & A1).
  rewrite R1, upsert_run by row_is_object.
  destruct (insert_on_conflict _ _ _ _) as [t1|] eqn:E1; [|discriminate].
  cbn [fst snd]. intros _. cbn zeta.
  destruct (checkout_path o2
              {| db := t1; log := log w ++ [SqlRun (V1.parameters (now o1) r1)] |}
              event Hty Ns)
    as (r2 & R2 & C2 & V2 & S2 & M2 & P2 & O2 & A2).
  rewrite R2, upsert_run by row_is_object. cbn [db log].
  rewrite (insert_on_conflict_again (V1.parameters (now o1) r1)
             (V1.parameters (now o2) r2) (db w) t1 id Hw); auto;
    cbn [V1.parameters checkout_session_id verification_session_id customer_email
         product_id promo_code status payload]; try congruence.
  rewrite C1, Hid, or_Str by assumption. reflexivity.
Qed.

End Checkout.

Lemma checkout_completed_status_witness :
  let run := @V1.dispatch sample unpaid_checkout quiet empty_world in
  fst run = inr received
  /\ exists row,
       by_checkout "cs_1" (db (snd run)) = Some row
       /\ status row = Some "payment_not_paid".
Proof.
  intros run.
  destruct (@checkout_completed_status sample quiet empty_world unpaid_checkout "cs_1"
              eq_refl eq_refl ltac:(discriminate)) as [A B].
  split.
  - apply A; [split; exact I | reflexivity].
  - apply B. apply A; [split; exact I | reflexivity].
Defined.

(** The second variant records [paid] whatever the payment status
    (line 303), with or without a UNIQUE verification id. *)
Lemma checkout_unpaid_recorded_paid_v2 :
  get (get (get unpaid_checkout "data") "object") "payment_status" = Str "unpaid"
  /\ option_map status
       (by_checkout "cs_1" (db (snd (@V2.dispatch sample true unpaid_checkout quiet empty_world))))
     = Some (Some "paid")
  /\ option_map status
       (by_checkout "cs_1" (db (snd (@V2.dispatch sample false unpaid_checkout quiet empty_world))))
     = Some (Some "paid").
Proof. repeat split. Qed.

(** ** Verification events *)

Section Verification.
Context `{Platform}.

Lemma holds_verification_snoc (k : string) (t : table) (r : Row) :
  verification_session_id r = Some k ->
  holds_verification (Some k) (t ++ [r]) = true.
Proof.
  intros E. unfold holds_verification. rewrite existsb_app. cbn [existsb].
  rewrite E, same_key_refl. now rewrite orb_true_r.
Qed.

(** The cells of a row that carries no checkout id and the verification
    id [id]. *)
Lemma verification_cells (ts : Z) (row : value) (id : string) :
  get row "checkout_session_id" = Null ->
  get row "verification_session_id" = Str id ->
  id <> "" ->
  checkout_session_id (V1.parameters ts row) = None
  /\ verification_session_id (V1.parameters ts row) = Some id.
Proof.
  intros C V N. cbn [V1.parameters checkout_session_id verification_session_id].
  rewrite C, V, or_Str by assumption. split; reflexivity.
Qed.

(** C1, what the code does with a verification event whose identifier is
    already stored.  Take an [identity.verification_session.verified] or
    [identity.verification_session.requires_input] event whose session has
    the non-empty string [id], and a table in which some row already holds
    that verification id.  The handler runs one statement, which the
    UNIQUE constraint refuses because the conflict target is the (NULL)
    checkout id; it answers 500 and the table is exactly what it was: the
    stored row is not updated by any merge. *)
Theorem known_verification_id_is_refused (o : Outcomes) (w : world) (event : value)
    (id : string) :
  get event "type" = Str "identity.verification_session.verified"
  \/ get event "type" = Str "identity.verification_session.requires_input" ->
  get (get (get event "data") "object") "id" = Str id ->
  id <> "" ->
  holds_verification (Some id) (db w) = true ->
  exists write,
    V1.dispatch event o w
    = (inr server_error, {| db := db w; log := log w ++ [SqlRun write] |})
    /\ checkout_session_id write = None
    /\ verification_session_id write = Some id.
Proof.
  intros Hty Hid Hne Held.
  pose proof (get_Str_object _ _ _ Hid) as Ns.
  destruct Hty as [Hty|Hty].
  - destruct (verified_path o w event Hty Ns) as (row & args & R & Rc & Rv & _).
    rewrite Hid in Rv.
    destruct (verification_cells (now o) row id Rc Rv Hne) as [C V].
    exists (V1.parameters (now o) row). rewrite R, upsert_run by row_is_object.
    rewrite (insert_null_held V1.do_update _ _ C) by now rewrite V.
    auto.
  - destruct (requires_input_path o w event Hty Ns) as (row & R & Rc & Rv & _).
    rewrite Hid in Rv.
    destruct (verification_cells (now o) row id Rc Rv Hne) as [C V].
    exists (V1.parameters (now o) row). rewrite R, upsert_run by row_is_object.
    rewrite (insert_null_held V1.do_update _ _ C) by now rewrite V.
    auto.
Qed.

(** X3.  The refusal of a known verification id meets the handler's own
    second write: on the first delivery of a [verified] event with a
    non-empty string id, when the provisioner is called and answers,
    the statement recording [fulfilled] is refused, no mail is sent, the
    answer is 500 and the row stays [verified]. *)
Lemma verified_is_never_fulfilled (o : Outcomes) (w : world) (event : value)
    (id : string) (data : value) :
  get event "type" = Str "identity.verification_session.verified" ->
  get (get (get event "data") "object") "id" = Str id ->
  id <> "" ->
  holds_verification (Some id) (db w) = false ->
  relay o = Some data ->
  exists first post second,
    V1.dispatch event o w
    = (inr server_error,
       {| db := db w ++ [first];
          log := log w ++ [SqlRun first; post; SqlRun second] |})
    /\ status first = Some "verified"
    /\ status second = Some "fulfilled"
    /\ is_http post = true.
Proof.
  intros Hty Hid Hne Fresh Hrelay.
  pose proof (get_Str_object _ _ _ Hid) as Ns.
  destruct (verified_path o w event Hty Ns)
    as (row & args & R & Rc & Rv & Rs & Ac & Av).
  rewrite Hid in Rv, Av.
  destruct (verification_cells (now o) row id Rc Rv Hne) as [C V].
  rewrite R, upsert_run by row_is_object.
  rewrite (insert_null_fresh V1.do_update true _ _ C) by now rewrite V.
  destruct (provisionAndWelcome_run args o
              {| db := db w ++ [V1.parameters (now o) row];
                 log := log w ++ [SqlRun (V1.parameters (now o) row)] |})
    as (post & frow & mail & P & Hpost & _ & Hrow).
  rewrite P, Hrelay. cbn [db log]. cbn zeta.
  destruct (Hrow data) as (Fs & Fc & Fv). rewrite Ac in Fc. rewrite Av in Fv.
  destruct (verification_cells (now o) (frow data) id Fc Fv Hne) as [C2 V2].
  rewrite (insert_null_held V1.do_update _ _ C2)
    by (rewrite V2; now apply holds_verification_snoc).
  exists (V1.parameters (now o) row), post, (V1.parameters (now o) (frow data)).
  rewrite <- app_assoc. cbn [app]. repeat split; auto.
  - cbn [V1.parameters status]. now rewrite Rs.
  - cbn [V1.parameters status]. now rewrite Fs.
Qed.

(** C4, as the code has it.  Take the first delivery of an
    [identity.verification_session.verified] event (no row holds its
    non-empty verification id yet) and let the call to the provisioner
    fail (non-2xx answer or timeout).  The answer is HTTP 500; the log
    gains the [verified] statement and the HTTP call and nothing else, so
    no mail is sent; the table gains the one row written before the call,
    and that row, found under the verification id, has status [verified]:
    [fulfillment_failed] is not written. *)
Theorem relay_failure_leaves_verified (o : Outcomes) (w : world) (event : value)
    (id : string) :
  get event "type" = Str "identity.verification_session.verified" ->
  get (get (get event "data") "object") "id" = Str id ->
  id <> "" ->
  holds_verification (Some id) (db w) = false ->
  relay o = None ->
  exists row post,
    V1.dispatch event o w
    = (inr server_error,
       {| db := db w ++ [row]; log := log w ++ [SqlRun row; post] |})
    /\ is_http post = true
    /\ by_verification id (db w ++ [row]) = Some row
    /\ status row = Some "verified".
Proof.
  intros Hty Hid Hne Fresh Hrelay.
  pose proof (get_Str_object _ _ _ Hid) as Ns.
  destruct (verified_path o w event Hty Ns)
    as (row & args & R & Rc & Rv & Rs & _).
  rewrite Hid in Rv.
  destruct (verification_cells (now o) row id Rc Rv Hne) as [C V].
  rewrite R, upsert_run by row_is_object.
  rewrite (insert_null_fresh V1.do_update true _ _ C) by now rewrite V.
  destruct (provisionAndWelcome_run args o
              {| db := db w ++ [V1.parameters (now o) row];
                 log := log w ++ [SqlRun (V1.parameters (now o) row)] |})
    as (post & frow & mail & P & Hpost & _).
  rewrite P, Hrelay. cbn [db log].
  exists (V1.parameters (now o) row), post.
  rewrite <- app_assoc. cbn [app]. repeat split; auto.
  - now apply by_verification_snoc.
  - cbn [V1.parameters status]. now rewrite Rs.
Qed.

End Verification.

Lemma known_verification_id_is_refused_witness :
  option_map status (by_verification "vs_1" (db after_requires_input))
  = Some (Some "needs_input")
  /\ exists write,
       @V1.dispatch sample verified_vs_1 quiet after_requires_input
       = (inr server_error,
          {| db := db after_requires_input;
             log := log after_requires_input ++ [SqlRun write] |})
       /\ checkout_session_id write = None
       /\ verification_session_id write = Some "vs_1".
Proof.
  split; [reflexivity|].
  apply (@known_verification_id_is_refused sample quiet
           after_requires_input verified_vs_1 "vs_1");
    [left; reflexivity | reflexivity | discriminate | reflexivity].
Defined.

Lemma relay_failure_leaves_verified_witness :
  exists row post,
    @V1.dispatch sample verified_vs_1 relay_down empty_world
    = (inr server_error,
       {| db := [] ++ [row]; log := [] ++ [SqlRun row; post] |})
    /\ is_http post = true
    /\ by_verification "vs_1" ([] ++ [row]) = Some row
    /\ status row = Some "verified".
Proof.
  apply (@relay_failure_leaves_verified sample relay_down
           empty_world verified_vs_1 "vs_1");
    [reflexivity | reflexivity | discriminate | reflexivity | reflexivity].
Defined.

(** With the provisioner down, the row of [vs_1] ends as [verified], not
    as [fulfillment_failed]. *)
Lemma relay_failure_not_recorded :
  let run := @V1.dispatch sample verified_vs_1 relay_down
               empty_world in
  relay relay_down = None
  /\ fst run = inr server_error
  /\ option_map status (by_verification "vs_1" (db (snd run))) = Some (Some "verified")
  /\ option_map status (by_verification "vs_1" (db (snd run)))
     <> Some (Some "fulfillment_failed").
Proof. repeat split. discriminate. Qed.

(** ** [provisionAndWelcome]: the write and the mail *)

Section Fulfil.
Context `{Platform}.



Ltac reduce :=
  cbv [V1.dispatch try_catch V1.handle V1.provisionAndWelcome V1.sendMail
       axios_post transporter_sendMail V1.upsert bind member ask emit ret throw
       relay smtp_ok now iso_now db log fst snd];
  change (nullish (Obj ?fields)) with false; cbv iota.

(** X4.  In the webhook itself the table a request leaves does not depend on
    whether the mail could be sent. *)
Lemma mail_failure_keeps_store (event : value) (o : Outcomes) (w : world) :
  db (snd (V1.dispatch event o w))
  = db (snd (V1.dispatch event
               {| relay := relay o; smtp_ok := negb (smtp_ok o);
                  now := now o; iso_now := iso_now o |} w)).
Proof.
  destruct o as [answer ok ts iso].
  reduce.
  destruct (nullish event); [reflexivity|].
  repeat match goal with
         | |- context [if is_str ?a ?b then _ else _] => destruct (is_str a b)
         end;
    repeat match goal with
           | |- context [if nullish ?a then _ else _] => destruct (nullish a)
           end;
    try reflexivity;
    repeat match goal with
           | |- context [insert_on_conflict ?u ?f ?e ?t] =>
               destruct (insert_on_conflict u f e t); reduce
           end;
    try reflexivity;
    destruct answer; reduce;
    repeat match goal with
           | |- context [insert_on_conflict ?u ?f ?e ?t] =>
               destruct (insert_on_conflict u f e t); reduce
           end;
    try reflexivity;
    destruct ok; reflexivity.
Qed.

End Fulfil.


(** Called on a store that does not know [vs_2], with the transport
    down: the call throws and the row is there, [fulfilled]. *)
Example provision_then_mail_failure :
  let run := @V1.provisionAndWelcome sample provision_vs_2
               mail_down empty_world in
  fst run = inl SmtpError
  /\ option_map status (by_verification "vs_2" (db (snd run))) = Some (Some "fulfilled")
  /\ map is_mail (log (snd run)) = [false; false; true].
Proof. repeat split. Qed.

(** ** The health snapshot *)

(** C9 on the empty table.  [SUM] over no row is NULL, so the snapshot of
    an empty table is [{ok: true, verified: null, fulfilled: null,
    events_24h: null}]: its [fulfilled] and [verified] fields are [null],
    not the number of such rows, which is 0. *)
Theorem health_of_empty_table (timestamp : Z) :
  V1.api_health false timestamp []
  = mkResponse 200 (Json (Obj [("ok", Bool true); ("verified", Null);
                               ("fulfilled", Null); ("events_24h", Null)]))
  /\ count_status "fulfilled" [] = 0
  /\ count_status "verified" [] = 0.
Proof. repeat split. Qed.

(** As soon as the table has a row, the two fields are the counts. *)
Lemma health_counts (timestamp : Z) (r : Row) (t : table) :
  exists recent,
    V1.api_health false timestamp (r :: t)
    = mkResponse 200
        (Json (Obj [("ok", Bool true);
                    ("verified", Num (count_status "verified" (r :: t)));
                    ("fulfilled", Num (count_status "fulfilled" (r :: t)));
                    ("events_24h", Num recent)])).
Proof.
  unfold V1.api_health, V1.health_row, count_status.
  rewrite !SUM_indicator. eexists. reflexivity.
Qed.

(** ** [upsert]: binding and merge *)

Section Upsert.
Context `{Platform}.

Lemma upsert_accepted (row : value) (o : Outcomes) (w w' : world) :
  V1.upsert row o w = (inr tt, w') ->
  insert_on_conflict true V1.do_update (V1.parameters (now o) row) (db w) = Some (db w').
Proof.
  destruct (nullish row) eqn:N; [rewrite upsert_of_nothing by assumption; discriminate|].
  rewrite upsert_run by assumption.
  destruct (insert_on_conflict _ _ _ _); [|discriminate].
  intros E. inversion E. reflexivity.
Qed.

(** An upsert is accepted as soon as, on a well-keyed table, no row holds
    the verification id it brings. *)
Lemma upsert_accepts (row : value) (o : Outcomes) (w : world) :
  nullish row = false ->
  well_keyed (db w) ->
  holds_verification (verification_session_id (V1.parameters (now o) row)) (db w) = false ->
  exists w', V1.upsert row o w = (inr tt, w').
Proof.
  intros N Hw Hv. rewrite upsert_run by assumption.
  destruct (insert_on_conflict_accepts _ _ Hw Hv) as (t & ->). eauto.
Qed.

(** The row an accepted upsert leaves under its checkout id: the merge of
    the stored row with the bound parameters, or the parameters
    themselves when the id was new. *)
Lemma upsert_lookup (row : value) (o : Outcomes) (w w' : world) (k : string) :
  checkout_session_id (V1.parameters (now o) row) = Some k ->
  V1.upsert row o w = (inr tt, w') ->
  by_checkout k (db w')
  = Some (match by_checkout k (db w) with
          | Some old => V1.do_update (V1.parameters (now o) row) old
          | None => V1.parameters (now o) row
          end).
Proof.
  intros C U. apply upsert_accepted in U.
  pose proof (insert_on_conflict_lookup V1.do_update true _ _ _ k
                do_update_keeps_checkout C U) as L.
  destruct (by_checkout k (db w)); tauto.
Qed.

(** When an accepted upsert hits the row stored under its checkout id,
    that row's status becomes the incoming status, whatever the stored
    status was. *)
Lemma upsert_overwrites_status (row : value) (o : Outcomes) (w w' : world)
    (k : string) (old : Row) :
  checkout_session_id (V1.parameters (now o) row) = Some k ->
  by_checkout k (db w) = Some old ->
  V1.upsert row o w = (inr tt, w') ->
  exists new,
    by_checkout k (db w') = Some new
    /\ status new = to_cell (get row "status").
Proof.
  intros C O U. rewrite (upsert_lookup row o w w' k C U), O.
  eexists. split; reflexivity.
Qed.

(** C3, for the first variant's upsert.  Two accepted upserts with the
    same non-NULL checkout id leave one row under that id in which
    [verification_session_id], [customer_email], [product_id] and
    [promo_code] are the second call's value when it is present and the
    value left by the first call otherwise, and in which [status] and
    [payload] are the second call's.  In particular a promo code absent
    from the first call and ["X"] in the second ends as ["X"], and a promo
    code ["X"] in the first call survives a second call without one. *)
Theorem upsert_merges (r1 r2 : value) (o1 o2 : Outcomes) (w w1 w2 : world)
    (k : string) :
  checkout_session_id (V1.parameters (now o1) r1) = Some k ->
  checkout_session_id (V1.parameters (now o2) r2) = Some k ->
  V1.upsert r1 o1 w = (inr tt, w1) ->
  V1.upsert r2 o2 w1 = (inr tt, w2) ->
  exists x1 x2,
    by_checkout k (db w1) = Some x1
    /\ by_checkout k (db w2) = Some x2
    /\ verification_session_id x2
       = COALESCE (to_cell (Js.or (get r2 "verification_session_id") Null))
                  (verification_session_id x1)
    /\ customer_email x2
       = COALESCE (to_cell (Js.or (get r2 "customer_email") Null)) (customer_email x1)
    /\ product_id x2
       = COALESCE (to_cell (Js.or (get r2 "product_id") Null)) (product_id x1)
    /\ promo_code x2
       = COALESCE (to_cell (Js.or (get r2 "promo_code") Null)) (promo_code x1)
    /\ status x2 = to_cell (get r2 "status")
    /\ payload x2 = Some (JSON_stringify (Js.or (get r2 "payload") (Obj [])))
    /\ (forall X, X <> "" ->
          truthy (get r1 "promo_code") = false -> get r2 "promo_code" = Str X ->
          promo_code x2 = Some X)
    /\ (forall X, X <> "" ->
          get r1 "promo_code" = Str X -> truthy (get r2 "promo_code") = false ->
          promo_code x2 = Some X).
Proof.
  intros C1 C2 U1 U2.
  pose proof (upsert_lookup r1 o1 w w1 k C1 U1) as L1.
  pose proof (upsert_lookup r2 o2 w1 w2 k C2 U2) as L2.
  rewrite L1 in L2.
  eexists. eexists. split; [exact L1|]. split; [exact L2|].
  cbn [V1.do_update V1.parameters verification_session_id customer_email product_id
       promo_code status payload].
  repeat split.
  - intros X NX F1 E2. rewrite E2, or_Str by assumption. reflexivity.
  - intros X NX E1 F2. rewrite (or_falsy _ _ F2). cbn [to_cell COALESCE].
    destruct (by_checkout k (db w)) as [old|];
      cbn [V1.do_update V1.parameters promo_code];
      rewrite E1, or_Str by assumption; reflexivity.
Qed.

(** C10, for the five parameters bound through [|| null].  A falsy
    incoming [checkout_session_id], [verification_session_id],
    [customer_email], [product_id] or [promo_code] (the empty string,
    [null], [undefined], [0], [false]) is bound as NULL; on insert the new
    row is the bound parameters, so the cell is NULL; on conflict the
    stored [verification_session_id], [customer_email], [product_id] and
    [promo_code] are kept whenever the incoming value is falsy. *)
Theorem falsy_parameters_are_null (row : value) (o : Outcomes) (w w' : world) :
  let bound := V1.parameters (now o) row in
  ((truthy (get row "checkout_session_id") = false -> checkout_session_id bound = None)
   /\ (truthy (get row "verification_session_id") = false ->
       verification_session_id bound = None)
   /\ (truthy (get row "customer_email") = false -> customer_email bound = None)
   /\ (truthy (get row "product_id") = false -> product_id bound = None)
   /\ (truthy (get row "promo_code") = false -> promo_code bound = None))
  /\ (V1.upsert row o w = (inr tt, w') ->
      holds_checkout (checkout_session_id bound) (db w) = false ->
      db w' = db w ++ [bound])
  /\ (forall k old,
        V1.upsert row o w = (inr tt, w') ->
        checkout_session_id bound = Some k ->
        by_checkout k (db w) = Some old ->
        exists new,
          by_checkout k (db w') = Some new
          /\ (truthy (get row "verification_session_id") = false ->
              verification_session_id new = verification_session_id old)
          /\ (truthy (get row "customer_email") = false ->
              customer_email new = customer_email old)
          /\ (truthy (get row "product_id") = false -> product_id new = product_id old)
          /\ (truthy (get row "promo_code") = false -> promo_code new = promo_code old)).
Proof.
  intros bound. split; [|split].
  - subst bound. cbn [V1.parameters checkout_session_id verification_session_id
                       customer_email product_id promo_code].
    repeat split; apply to_cell_falsy.
  - intros U Hc. apply upsert_accepted in U. fold bound in U.
    unfold insert_on_conflict in U.
    destruct (find_conflict (checkout_session_id bound) (db w)) as [[[b h] a]|] eqn:F.
    + apply find_conflict_Some in F. destruct F as (E & K & _).
      rewrite E in Hc. unfold holds_checkout in Hc. rewrite existsb_app in Hc.
      cbn [existsb] in Hc. rewrite K in Hc. rewrite orb_true_r in Hc. discriminate.
    + destruct (true && _); [discriminate|]. now inversion U.
  - intros k old U C O. rewrite (upsert_lookup row o w w' k C U), O.
    eexists. split; [reflexivity|].
    cbn [V1.do_update V1.parameters verification_session_id customer_email product_id
         promo_code].
    repeat split; intros F; rewrite (to_cell_falsy _ F); reflexivity.
Qed.

End Upsert.

(** Two upserts on the same checkout id, [fulfilled] then [paid]: the one
    row ends as [paid], a step back in the lifecycle. *)
Lemma upserts_move_fulfilled_back_to_paid :
  option_map status (by_checkout "cs_1" (db after_fulfilled)) = Some (Some "fulfilled")
  /\ option_map status (by_checkout "cs_1" (db after_paid)) = Some (Some "paid")
  /\ length (db after_paid) = 1%nat
  /\ moves_backward (Some "fulfilled") (Some "paid") = true.
Proof. repeat split. Qed.

(** The same step back under an event, on a table the webhook does not
    build: a checkout event for a row stored as [fulfilled] is
    acknowledged and leaves it [paid]. *)
Example checkout_event_moves_fulfilled_back_to_paid :
  let run := @V1.dispatch sample paid_checkout quiet after_fulfilled in
  fst run = inr received
  /\ option_map status (by_checkout "cs_1" (db after_fulfilled)) = Some (Some "fulfilled")
  /\ option_map status (by_checkout "cs_1" (db (snd run))) = Some (Some "paid")
  /\ ~ payment_rows (db after_fulfilled).
Proof.
  repeat split. intros P. inversion P as [|r t Hr Ht]; subst.
  discriminate Hr. discriminate.
Qed.

Lemma upsert_merges_witness :
  exists x1 x2,
    by_checkout "cs_1" (db after_fulfilled) = Some x1
    /\ by_checkout "cs_1" (db after_paid) = Some x2
    /\ verification_session_id x2
       = COALESCE (@to_cell sample (Js.or (get paid_cs_1 "verification_session_id") Null))
                  (verification_session_id x1)
    /\ customer_email x2
       = COALESCE (@to_cell sample (Js.or (get paid_cs_1 "customer_email") Null))
                  (customer_email x1)
    /\ product_id x2
       = COALESCE (@to_cell sample (Js.or (get paid_cs_1 "product_id") Null)) (product_id x1)
    /\ promo_code x2
       = COALESCE (@to_cell sample (Js.or (get paid_cs_1 "promo_code") Null)) (promo_code x1)
    /\ status x2 = @to_cell sample (get paid_cs_1 "status")
    /\ payload x2 = Some (@JSON_stringify sample (Js.or (get paid_cs_1 "payload") (Obj [])))
    /\ (forall X, X <> "" ->
          truthy (get fulfilled_cs_1 "promo_code") = false ->
          get paid_cs_1 "promo_code" = Str X ->
          promo_code x2 = Some X)
    /\ (forall X, X <> "" ->
          get fulfilled_cs_1 "promo_code" = Str X ->
          truthy (get paid_cs_1 "promo_code") = false ->
          promo_code x2 = Some X).
Proof.
  apply (@upsert_merges sample fulfilled_cs_1 paid_cs_1 quiet quiet empty_world
           after_fulfilled after_paid "cs_1");
    reflexivity.
Defined.

(** The promo code ["X"] of the first call is still there after the
    second call, which brought none. *)
Example promo_code_survives :
  option_map promo_code (by_checkout "cs_1" (db after_fulfilled)) = Some (Some "X")
  /\ get paid_cs_1 "promo_code" = Null
  /\ option_map promo_code (by_checkout "cs_1" (db after_paid)) = Some (Some "X").
Proof. repeat split. Qed.

(** The second variant's upsert overwrites: the same two calls erase the
    promo code, whether or not its verification id column is UNIQUE. *)
Lemma upsert_v2_erases_promo_code :
  let second u := snd (@V2.upsert sample u paid_cs_1 quiet
                         (snd (@V2.upsert sample u fulfilled_cs_1 quiet empty_world))) in
  get fulfilled_cs_1 "promo_code" = Str "X"
  /\ get paid_cs_1 "promo_code" = Null
  /\ option_map promo_code (by_checkout "cs_1" (db (second true))) = Some None
  /\ option_map promo_code (by_checkout "cs_1" (db (second false))) = Some None.
Proof. repeat split. Qed.

(** [status] is bound as it comes: an empty-string status is stored as
    the empty string, not as NULL, and replaces the stored status. *)
Lemma empty_status_is_bound_as_text :
  truthy (get blank_status_cs_1 "status") = false
  /\ status (@V1.parameters sample 0 blank_status_cs_1) = Some ""
  /\ option_map status (by_checkout "cs_1" (db after_fulfilled)) = Some (Some "fulfilled")
  /\ option_map status
       (by_checkout "cs_1"
          (db (snd (@V1.upsert sample blank_status_cs_1 quiet after_fulfilled))))
     = Some (Some "").
Proof. repeat split. Qed.

Lemma falsy_parameters_are_null_witness :
  let bound := @V1.parameters sample (now quiet) paid_cs_1 in
  customer_email bound = None
  /\ promo_code bound = None
  /\ exists new,
       by_checkout "cs_1" (db after_paid) = Some new
       /\ promo_code new = Some "X".
Proof.
  intros bound.
  destruct (@falsy_parameters_are_null sample paid_cs_1 quiet after_fulfilled after_paid)
    as ((_ & _ & He & _ & Hp) & _ & Hm).
  split; [apply He; reflexivity|]. split; [apply Hp; reflexivity|].
  destruct (Hm "cs_1"
              {| checkout_session_id := Some "cs_1"; verification_session_id := None;
                 customer_email := None; product_id := None; promo_code := Some "X";
                 status := Some "fulfilled"; payload := Some "{}"; created_at := 1000 |}
              eq_refl eq_refl eq_refl) as (new & L & _ & _ & _ & P).
  exists new. split; [exact L|]. rewrite (P eq_refl). reflexivity.
Defined.

(** ** The other two variants on the same events *)

(** Second variant, [verified] event with an e-mail address in its
    metadata.  Where the verification id is UNIQUE the write of
    [fulfilled] is refused as in the first variant; where it is not, the
    same verification id ends on two rows. *)
Example verified_v2 :
  let run u := @V2.dispatch sample u verified_vs_1 quiet empty_world in
  fst (run true) = inr server_error
  /\ map status (db (snd (run true))) = [Some "verified"]
  /\ fst (run false) = inr received
  /\ map status (db (snd (run false))) = [Some "verified"; Some "fulfilled"]
  /\ map verification_session_id (db (snd (run false))) = [Some "vs_1"; Some "vs_1"].
Proof. repeat split. Qed.

(** Third variant, a paid checkout: the provisioner is called at once and
    the row is written [fulfilled]; with the provisioner down the row is
    written [fulfillment_failed] and the answer is an empty 500; a second
    delivery finds the row and changes nothing. *)
Example checkout_v3 :
  let P := fixed_platform (inr paid_checkout) in
  let first := @V3.webhook P signed_request quiet empty_world in
  let failed := @V3.webhook P signed_request relay_down empty_world in
  let again := @V3.webhook P signed_request quiet (snd failed) in
  fst first = inr received
  /\ map status (db (snd first)) = [Some "fulfilled"]
  /\ map is_mail (log (snd first)) = [false; false; false; true]
  /\ fst failed = inr (mkResponse 500 Empty)
  /\ map status (db (snd failed)) = [Some "fulfillment_failed"]
  /\ existsb is_mail (log (snd failed)) = false
  /\ fst again = inr received
  /\ db (snd again) = db (snd failed).
Proof. repeat split. Qed.

(** ** Status changes under the handled events *)

Section Lifecycle.
Context `{Platform}.

Lemma rewritten_refl (t : table) : Forall2 rewritten t t.
Proof. induction t; constructor; auto. now left. Qed.

Lemma rewritten_trans (a b c : Row) : rewritten a b -> rewritten b c -> rewritten a c.
Proof.
  intros [->|[Ca Pb]] [->|[Cb Pc]]; unfold rewritten; auto.
Qed.

Lemma extends_refl (t : table) : extends t t.
Proof. exists t, []. split; [now rewrite app_nil_r|apply rewritten_refl]. Qed.

Lemma Forall2_rewritten_trans (t1 t2 t3 : table) :
  Forall2 rewritten t1 t2 -> Forall2 rewritten t2 t3 -> Forall2 rewritten t1 t3.
Proof.
  intros F. revert t3. induction F; intros t3 G; inversion G; subst; constructor.
  - eapply rewritten_trans; eauto.
  - auto.
Qed.

Lemma extends_trans (t1 t2 t3 : table) : extends t1 t2 -> extends t2 t3 -> extends t1 t3.
Proof.
  intros (k1 & a1 & -> & F1) (k2 & a2 & -> & F2).
  apply Forall2_app_inv_l in F2. destruct F2 as (k2' & a2' & Fk & Fa & ->).
  exists k2', (a2' ++ a2). split; [now rewrite app_assoc|].
  eapply Forall2_rewritten_trans; eauto.
Qed.

(** The statement rewrites at most the row of its checkout id and may
    append one row. *)
Lemma insert_on_conflict_extends (e : Row) (t t' : table) :
  checkout_session_id e = None \/ payment (status e) = true ->
  insert_on_conflict true V1.do_update e t = Some t' ->
  extends t t'.
Proof.
  intros He. unfold insert_on_conflict.
  destruct (find_conflict (checkout_session_id e) t) as [[[b h] a]|] eqn:F.
  - apply find_conflict_Some in F. destruct F as (-> & K & _).
    destruct (true && _); [discriminate|]. intros E; inversion E; subst.
    exists (b ++ V1.do_update e h :: a), []. split; [now rewrite app_nil_r|].
    apply Forall2_app; [apply rewritten_refl|].
    constructor; [|apply rewritten_refl].
    right. apply same_key_true in K. destruct K as (k & Ke & Kh).
    split; [congruence|]. destruct He as [He|He]; [congruence|exact He].
  - destruct (true && _); [discriminate|]. intros E; inversion E; subst.
    exists t, [e]. split; [reflexivity|apply rewritten_refl].
Qed.

Lemma insert_on_conflict_payment_rows (e : Row) (t t' : table) :
  checkout_session_id e = None \/ payment (status e) = true ->
  payment_rows t ->
  insert_on_conflict true V1.do_update e t = Some t' ->
  payment_rows t'.
Proof.
  intros He Ht. unfold insert_on_conflict, payment_rows in *.
  assert (Pe : checkout_session_id e <> None -> payment (status e) = true)
    by (destruct He; [congruence|auto]).
  destruct (find_conflict (checkout_session_id e) t) as [[[b h] a]|] eqn:F.
  - apply find_conflict_Some in F. destruct F as (-> & K & _).
    destruct (true && _); [discriminate|]. intros E; inversion E; subst.
    apply Forall_app in Ht. destruct Ht as [Hb Hha]. inversion Hha; subst.
    apply Forall_app. split; [exact Hb|]. constructor; [|assumption].
    intros _. apply Pe. apply same_key_true in K. destruct K as (k & -> & _).
    discriminate.
  - destruct (true && _); [discriminate|]. intros E; inversion E; subst.
    apply Forall_app. split; [exact Ht|]. constructor; [exact Pe|constructor].
Qed.

Lemma moves_ret {A} (a : A) : moves extends (ret a).
Proof. intros o w. apply extends_refl. Qed.

Lemma moves_throw {A} (e : error) : moves extends (@throw A e).
Proof. intros o w. apply extends_refl. Qed.

Lemma moves_ask : moves extends ask.
Proof. intros o w. apply extends_refl. Qed.

Lemma moves_emit (e : effect) : moves extends (emit e).
Proof. intros o w. apply extends_refl. Qed.

Lemma moves_bind {A B} (m : M A) (k : A -> M B) :
  moves extends m -> (forall a, moves extends (k a)) -> moves extends (bind m k).
Proof.
  intros Hm Hk o w. unfold bind. specialize (Hm o w).
  destruct (m o w) as [[e|a] w']; cbn [snd] in *; [assumption|].
  eapply extends_trans; [exact Hm|apply Hk].
Qed.

Lemma moves_try_catch {A} (m : M A) (handler : error -> M A) :
  moves extends m -> (forall e, moves extends (handler e)) ->
  moves extends (try_catch m handler).
Proof.
  intros Hm Hh o w. unfold try_catch. specialize (Hm o w).
  destruct (m o w) as [[e|a] w']; cbn [snd] in *; [|assumption].
  eapply extends_trans; [exact Hm|apply Hh].
Qed.

Lemma moves_member (o : value) (k : string) : moves extends (member o k).
Proof. unfold member. destruct (nullish o); [apply moves_throw|apply moves_ret]. Qed.

Lemma moves_axios_post url body headers timeout :
  moves extends (axios_post url body headers timeout).
Proof.
  unfold axios_post. apply moves_bind; [apply moves_emit|intros _].
  apply moves_bind; [apply moves_ask|intros o].
  destruct (relay o); [apply moves_ret|apply moves_throw].
Qed.

Lemma moves_sendMail from to subject html :
  moves extends (transporter_sendMail from to subject html).
Proof.
  unfold transporter_sendMail. apply moves_bind; [apply moves_emit|intros _].
  apply moves_bind; [apply moves_ask|intros o].
  destruct (smtp_ok o); [apply moves_ret|apply moves_throw].
Qed.

Lemma moves_upsert (row : value) : tame row -> moves extends (V1.upsert row).
Proof.
  intros T o w.
  destruct (nullish row) eqn:N;
    [rewrite upsert_of_nothing by assumption; apply extends_refl|].
  rewrite upsert_run by assumption.
  destruct (insert_on_conflict _ _ _ _) as [t|] eqn:E; cbn [snd db];
    [|apply extends_refl].
  eapply insert_on_conflict_extends; [|exact E]. exact T.
Qed.

Lemma keeps_payment_upsert (row : value) :
  tame row -> keeps payment_rows (V1.upsert row).
Proof.
  intros T o w Hw.
  destruct (nullish row) eqn:N; [now rewrite upsert_of_nothing|].
  rewrite upsert_run by assumption.
  destruct (insert_on_conflict _ _ _ _) as [t|] eqn:E; cbn [snd db]; [|assumption].
  eapply insert_on_conflict_payment_rows; [|exact Hw|exact E]. exact T.
Qed.

End Lifecycle.

Create HintDb moves.

#[local] Hint Resolve moves_ret moves_throw moves_ask moves_emit moves_member
  moves_axios_post moves_sendMail : moves.

Ltac tame_row :=
  match goal with
  | |- tame _ =>
      first [ left; reflexivity
            | right; cbn;
              match goal with
              | |- context [is_str ?a "paid"] => destruct (is_str a "paid")
              end; reflexivity ]
  end.

Ltac moves_step :=
  match goal with
  | |- moves _ (bind _ _) => apply moves_bind; [|intro]
  | |- moves _ (try_catch _ _) => apply moves_try_catch; [|intro]
  | |- moves _ (if ?b then _ else _) => destruct b
  | |- moves _ (V1.upsert _) => apply moves_upsert; tame_row
  | |- moves _ _ => solve [auto with moves]
  | |- keeps _ (V1.upsert _) => apply keeps_payment_upsert; tame_row
  end.

Section Order.
Context `{Platform}.

Lemma moves_provisionAndWelcome (args : value) :
  to_cell (Js.or (get args "checkout_session_id") Null) = None ->
  moves extends (V1.provisionAndWelcome args).
Proof.
  intros C. unfold V1.provisionAndWelcome, V1.sendMail.
  repeat first [apply moves_upsert; left; exact C | moves_step].
Qed.

Lemma keeps_payment_provisionAndWelcome (args : value) :
  to_cell (Js.or (get args "checkout_session_id") Null) = None ->
  keeps payment_rows (V1.provisionAndWelcome args).
Proof.
  intros C. unfold V1.provisionAndWelcome, V1.sendMail.
  repeat first [apply keeps_payment_upsert; left; exact C | keeps_step].
Qed.

Lemma moves_dispatch (event : value) : moves extends (V1.dispatch event).
Proof.
  unfold V1.dispatch, V1.handle.
  repeat first [apply moves_provisionAndWelcome; reflexivity | moves_step].
Qed.

Lemma keeps_payment_dispatch (event : value) : keeps payment_rows (V1.dispatch event).
Proof.
  unfold V1.dispatch, V1.handle.
  repeat first [apply keeps_payment_provisionAndWelcome; reflexivity
               | moves_step | keeps_step].
Qed.

Lemma payment_is_first_stage (c : cell) : payment c = true -> stage c = Some 0%nat.
Proof. unfold payment, stage. now intros ->. Qed.

Lemma moves_backward_same (c : cell) : moves_backward c c = false.
Proof.
  unfold moves_backward. destruct (stage c); [apply Nat.ltb_irrefl|reflexivity].
Qed.

End Order.

Section Order_theorem.
Context `{Platform}.

Lemma Forall2_nth_error {A B} (R : A -> B -> Prop) (l : list A) (l' : list B) :
  Forall2 R l l' ->
  forall i a, nth_error l i = Some a -> exists b, nth_error l' i = Some b /\ R a b.
Proof.
  induction 1 as [|a b l l' Hab F IH]; intros i x E.
  - destruct i; discriminate.
  - destruct i as [|i]; cbn [nth_error] in *.
    + inversion E; subst. eauto.
    + eauto.
Qed.

Lemma extends_nth_error (t t' : table) (i : nat) (r : Row) :
  extends t t' -> nth_error t i = Some r ->
  exists r', nth_error t' i = Some r' /\ rewritten r r'.
Proof.
  intros (kept & added & -> & F) E.
  destruct (Forall2_nth_error _ _ _ F i r E) as (r' & E' & R).
  exists r'. split; [|exact R].
  rewrite nth_error_app1; [exact E'|].
  apply nth_error_Some. congruence.
Qed.

Lemma deliver_payment_rows (events : list (Outcomes * value)) (w : world) :
  payment_rows (db w) -> payment_rows (db (snd (deliver V1.dispatch events w))).
Proof.
  revert w. induction events as [|[o event] rest IH]; intros w Hw; [exact Hw|].
  cbn [deliver]. pose proof (keeps_payment_dispatch event o w Hw) as K.
  destruct (V1.dispatch event o w) as [r w']. cbn [snd] in K.
  specialize (IH w' K). destruct (deliver V1.dispatch rest w') as [rs w''].
  exact IH.
Qed.

(** C2, as the code has it.  (1) Take a table in which the rows that
    carry a checkout id hold [paid] or [payment_not_paid].  Under any
    event the first variant handles the table keeps this property and no
    stored row moves backward: the row at any position is, after the
    event, still at that position with the same status, or is a row that
    went from one of [paid], [payment_not_paid] to one of them.  (2) The
    tables the webhook builds from the empty table, by any sequence of
    events, are such tables.  (3) The order is not enforced by [upsert],
    and does not hold on other tables: an accepted upsert that hits the
    row stored under its checkout id sets that row's status to the
    incoming status, whatever the stored status was. *)
Theorem status_under_events_and_upserts :
  (forall (event : value) (o : Outcomes) (w : world),
      payment_rows (db w) ->
      payment_rows (db (snd (V1.dispatch event o w)))
      /\ forall i r,
           nth_error (db w) i = Some r ->
           exists r',
             nth_error (db (snd (V1.dispatch event o w))) i = Some r'
             /\ moves_backward (status r) (status r') = false
             /\ (status r' = status r
                 \/ (payment (status r) = true /\ payment (status r') = true)))
  /\ (forall events : list (Outcomes * value),
        payment_rows (db (snd (deliver V1.dispatch events {| db := []; log := [] |}))))
  /\ (forall (row : value) (o : Outcomes) (w w' : world) (k : string) (old : Row),
        checkout_session_id (V1.parameters (now o) row) = Some k ->
        by_checkout k (db w) = Some old ->
        V1.upsert row o w = (inr tt, w') ->
        exists new,
          by_checkout k (db w') = Some new
          /\ status new = to_cell (get row "status")).
Proof.
  split; [|split].
  - intros event o w Hw. split; [now apply keeps_payment_dispatch|].
    intros i r E.
    destruct (extends_nth_error _ _ i r (moves_dispatch event o w) E) as (r' & E' & R).
    exists r'. split; [exact E'|].
    destruct R as [->|[C P']].
    + split; [apply moves_backward_same|now left].
    + assert (P : payment (status r) = true).
      { unfold payment_rows in Hw. rewrite Forall_forall in Hw.
        apply Hw; [|exact C]. eapply nth_error_In; eauto. }
      split; [|now right].
      unfold moves_backward.
      now rewrite (payment_is_first_stage _ P), (payment_is_first_stage _ P').
  - intros events. apply deliver_payment_rows. constructor.
  - intros row o w w' k old C O U. eapply upsert_overwrites_status; eauto.
Qed.

End Order_theorem.

Lemma status_under_events_and_upserts_witness :
  (exists r',
     nth_error (db (snd (@V1.dispatch sample unpaid_checkout quiet after_checkout))) 0
     = Some r'
     /\ moves_backward (Some "paid") (status r') = false
     /\ (status r' = Some "paid"
         \/ (payment (Some "paid") = true /\ payment (status r') = true)))
  /\ exists new,
       by_checkout "cs_1" (db after_paid) = Some new
       /\ status new = @to_cell sample (get paid_cs_1 "status").
Proof.
  destruct (@status_under_events_and_upserts sample) as (Events & Built & Upserts).
  split.
  - assert (P : payment_rows (db after_checkout))
      by exact (Built [(quiet, paid_checkout)]).
    destruct (Events unpaid_checkout quiet after_checkout P) as [_ Rows].
    exact (Rows 0%nat
             {| checkout_session_id := Some "cs_1"; verification_session_id := None;
                customer_email := Some "ada@example.test";
                product_id := Some "builder-pass"; promo_code := Some "X";
                status := Some "paid"; payload := Some "{}"; created_at := 1000 |}
             eq_refl).
  - apply (Upserts paid_cs_1 quiet after_fulfilled after_paid "cs_1"
             {| checkout_session_id := Some "cs_1"; verification_session_id := None;
                customer_email := None; product_id := None; promo_code := Some "X";
                status := Some "fulfilled"; payload := Some "{}"; created_at := 1000 |});
      reflexivity.
Defined.

(** ** [escapeHTML] *)

Section Escape.

Lemma entity_cases (c : ascii) :
  (special c = false /\ V1.entity c = String c "")
  \/ (c = "&"%char /\ V1.entity c = "&amp;")
  \/ (c = "<"%char /\ V1.entity c = "&lt;")
  \/ (c = ">"%char /\ V1.entity c = "&gt;")
  \/ (c = ascii_of_nat 34 /\ V1.entity c = "&quot;")
  \/ (c = "'"%char /\ V1.entity c = "&#39;").
Proof.
  unfold V1.entity, special.
  destruct (Ascii.eqb_spec c "&"); [subst; tauto|].
  destruct (Ascii.eqb_spec c "<"); [subst; tauto|].
  destruct (Ascii.eqb_spec c ">"); [subst; tauto|].
  destruct (Ascii.eqb_spec c (ascii_of_nat 34)); [subst; tauto|].
  destruct (Ascii.eqb_spec c "'"); [subst; tauto|].
  left. auto.
Qed.

Lemma all_chars_app (p : ascii -> bool) (a b : string) :
  all_chars p (a ++ b) = all_chars p a && all_chars p b.
Proof.
  induction a as [|c a IH]; cbn [all_chars String.append]; [reflexivity|].
  now rewrite IH, andb_assoc.
Qed.

Lemma special_markup (c : ascii) : special c = false -> markup c = false.
Proof.
  unfold special, markup. intros E.
  repeat (apply orb_false_iff in E; destruct E as [E ?]).
  repeat (apply orb_false_iff; split); assumption.
Qed.

Lemma entity_inert (c : ascii) : all_chars (fun x => negb (markup x)) (V1.entity c) = true.
Proof.
  destruct (entity_cases c) as [[S ->]|[[_ ->]|[[_ ->]|[[_ ->]|[[_ ->]|[_ ->]]]]]];
    try reflexivity.
  cbn [all_chars]. now rewrite (special_markup _ S).
Qed.

Lemma escapeHTML_app (a b : string) :
  V1.escapeHTML (a ++ b) = (V1.escapeHTML a ++ V1.escapeHTML b)%string.
Proof.
  induction a as [|c a IH]; cbn [V1.escapeHTML String.append]; [reflexivity|].
  rewrite IH. clear. induction (V1.entity c) as [|x e IH]; cbn [String.append];
    [reflexivity|now rewrite IH].
Qed.

Lemma length_append (a b : string) :
  String.length (a ++ b) = (String.length a + String.length b)%nat.
Proof. induction a as [|c a IH]; cbn [String.append String.length]; lia. Qed.

Lemma entity_length (c : ascii) :
  (1 <= String.length (V1.entity c) <= 6)%nat.
Proof.
  destruct (entity_cases c) as [[_ ->]|[[_ ->]|[[_ ->]|[[_ ->]|[[_ ->]|[_ ->]]]]]];
    cbn [String.length]; lia.
Qed.

(** The escaped text is never shorter than the text and at most six
    times as long. *)
Lemma escapeHTML_length (s : string) :
  (String.length s <= String.length (V1.escapeHTML s) <= 6 * String.length s)%nat.
Proof.
  induction s as [|c s IH]; cbn [V1.escapeHTML String.length]; [lia|].
  rewrite length_append. pose proof (entity_length c). lia.
Qed.

Lemma escapeHTML_inert (s : string) :
  all_chars (fun c => negb (markup c)) (V1.escapeHTML s) = true.
Proof.
  induction s as [|c s IH]; cbn [V1.escapeHTML]; [reflexivity|].
  now rewrite all_chars_app, entity_inert, IH.
Qed.

Lemma escapeHTML_cancel (a b : string) :
  V1.escapeHTML a = V1.escapeHTML b -> a = b.
Proof.
  revert b. induction a as [|c a IH]; intros [|d b]; cbn [V1.escapeHTML].
  - reflexivity.
  - intros E. exfalso. pose proof (entity_length d) as L.
    apply (f_equal String.length) in E. rewrite length_append in E.
    cbn [String.length] in E. lia.
  - intros E. exfalso. pose proof (entity_length c) as L.
    apply (f_equal String.length) in E. rewrite length_append in E.
    cbn [String.length] in E. lia.
  - intros E.
    destruct (entity_cases c) as [[Sc Ec]|[[-> Ec]|[[-> Ec]|[[-> Ec]|[[-> Ec]|[-> Ec]]]]]];
      destruct (entity_cases d) as [[Sd Ed]|[[-> Ed]|[[-> Ed]|[[-> Ed]|[[-> Ed]|[-> Ed]]]]]];
      rewrite ?Ec, ?Ed in E; cbn [String.append] in E;
      try (inversion E; subst; first [ discriminate | f_equal; now apply IH ]).
Qed.

(** X5.  Whatever the text, its escaped form holds no angle bracket and no
    quote: spliced between tags or inside an attribute value it cannot
    open or close markup.  It is never shorter than the text and at most
    six times as long. *)
Theorem escapeHTML_leaves_no_markup (s : string) :
  all_chars (fun c => negb (markup c)) (V1.escapeHTML s) = true
  /\ (String.length s <= String.length (V1.escapeHTML s) <= 6 * String.length s)%nat.
Proof. split; [apply escapeHTML_inert|apply escapeHTML_length]. Qed.

(** X6.  Escaping loses nothing: two texts with the same escaped form are the
    same text, also when other text precedes and follows them. *)
Theorem escapeHTML_injective (before a b after : string) :
  V1.escapeHTML (before ++ a ++ after) = V1.escapeHTML (before ++ b ++ after) -> a = b.
Proof.
  intros E. apply escapeHTML_cancel in E.
  induction before as [|c before IH]; cbn [String.append] in E.
  - revert b E. induction a as [|c a IH]; intros [|d b] E; cbn [String.append] in E.
    + reflexivity.
    + exfalso. apply (f_equal String.length) in E. cbn [String.length] in E.
      rewrite length_append in E. lia.
    + exfalso. apply (f_equal String.length) in E. cbn [String.length] in E.
      rewrite length_append in E. lia.
    + injection E as -> E. f_equal. now apply IH.
  - injection E as E. now apply IH.
Qed.

(** X7.  A text is its own escaped form exactly when it holds none of the five
    characters; escaping an escaped text again changes it as soon as the
    text held one of them. *)
Theorem escapeHTML_fixes_plain_text_only (s : string) :
  (V1.escapeHTML s = s <-> all_chars (fun c => negb (special c)) s = true)
  /\ (V1.escapeHTML (V1.escapeHTML s) = V1.escapeHTML s
      <-> all_chars (fun c => negb (special c)) s = true).
Proof.
  assert (Fix : forall t, V1.escapeHTML t = t <->
                          all_chars (fun c => negb (special c)) t = true).
  { induction t as [|c t IH]; cbn [V1.escapeHTML all_chars]; [tauto|].
    destruct (entity_cases c) as [[S E]|O].
    - rewrite E, S. cbn [String.append negb andb]. rewrite <- IH.
      split; intros F; [injection F; auto|f_equal; exact F].
    - destruct O as [[-> E]|[[-> E]|[[-> E]|[[-> E]|[-> E]]]]]; rewrite E;
        (split; [|discriminate]); intros F; exfalso;
        pose proof (escapeHTML_length t) as L;
        apply (f_equal String.length) in F; rewrite length_append in F;
        cbn [String.length] in F; lia. }
  split; [apply Fix|].
  split.
  - intros E. apply escapeHTML_cancel in E. now apply Fix.
  - intros P. apply Fix in P. now rewrite P.
Qed.

End Escape.

(** ** The welcome mail *)

Section Mail.
Context `{Platform}.

Lemma In_mail (m : effect) (l : list effect) :
  In m l -> is_mail m = true -> existsb is_mail l = true.
Proof. intros I M. apply existsb_exists. eauto. Qed.

(** X8.  Every mail [provisionAndWelcome] hands to the transport after an
    answer that carries credentials is addressed to the caller's [email]
    and shows the credentials escaped: its text is the greeting, the
    link and the configuration fragments, then the JSON text of
    [data.creds] under [escapeHTML] between [code] tags, then the closing
    line; whatever the answer holds, the text between the tags has no
    angle bracket and no quote. *)
Theorem credentials_are_escaped (args : value) (o : Outcomes) (w : world)
    (data : value) (added : list effect) (from : string) (to : value)
    (subject html : string) :
  relay o = Some data ->
  truthy (get data "creds") = true ->
  log (snd (V1.provisionAndWelcome args o w)) = log w ++ added ->
  In (Mail from to subject html) added ->
  exists body,
    html = ("<p>Welcome to the Nation.</p>
     <p>Your identity has been verified and your profile is active.</p>
     " ++ V1.productURL data ++ V1.wgConf data
         ++ ("<p>Credentials: <code>" ++ body ++ "</code></p>") ++ "
     <p>Questions? Reply to this email.</p>")%string
    /\ body = V1.escapeHTML (JSON_stringify (get data "creds"))
    /\ all_chars (fun c => negb (markup c)) body = true
    /\ to = get args "email".
Proof.
  intros Hrelay T L I.
  destruct (provisionAndWelcome_steps args o w) as (post & f & sub & Hp & P).
  rewrite P, Hrelay in L. cbn zeta in L.
  assert (Sent : Mail from to subject html
                 = Mail f (get args "email") sub (V1.welcome_mail data)).
  { destruct (insert_on_conflict _ _ _ _) as [t|]; cbn [snd log] in L;
      apply app_inv_head in L; subst added; cbn [In] in I.
    - destruct I as [I|[I|[I|[]]]]; [subst post; discriminate|discriminate|].
      now symmetry.
    - destruct I as [I|[I|[]]]; [subst post; discriminate|discriminate]. }
  injection Sent as -> -> -> ->.
  exists (V1.escapeHTML (JSON_stringify (get data "creds"))).
  split; [|split; [reflexivity|split; [apply escapeHTML_inert|reflexivity]]].
  unfold V1.welcome_mail, V1.creds. rewrite T. reflexivity.
Qed.

(** When the answer has no usable [product_url], [wg_conf] or [creds]
    (each absent or falsy; in particular when the answer is not an object
    at all) the mail is the fixed greeting, without any access
    information. *)
Lemma welcome_mail_without_access (data : value) :
  truthy (get data "product_url") = false ->
  truthy (get data "wg_conf") = false ->
  truthy (get data "creds") = false ->
  V1.welcome_mail data
  = "<p>Welcome to the Nation.</p>
     <p>Your identity has been verified and your profile is active.</p>
     
     <p>Questions? Reply to this email.</p>".
Proof.
  intros P W C. unfold V1.welcome_mail, V1.productURL, V1.wgConf, V1.creds.
  rewrite P, W, C. reflexivity.
Qed.

End Mail.

Lemma credentials_are_escaped_witness :
  exists body,
    welcome_text_with_creds
    = ("<p>Welcome to the Nation.</p>
     <p>Your identity has been verified and your profile is active.</p>
     " ++ @V1.productURL sample answer_with_creds ++ @V1.wgConf sample answer_with_creds
         ++ ("<p>Credentials: <code>" ++ body ++ "</code></p>") ++ "
     <p>Questions? Reply to this email.</p>")%string
    /\ body = V1.escapeHTML (@JSON_stringify sample (get answer_with_creds "creds"))
    /\ all_chars (fun c => negb (markup c)) body = true
    /\ Str "ada@example.test" = get provision_vs_2 "email".
Proof.
  apply (@credentials_are_escaped sample provision_vs_2
           {| relay := Some answer_with_creds; smtp_ok := true; now := 1000;
              iso_now := "2024-01-01T00:00:00.000Z" |}
           empty_world answer_with_creds
           [HttpPost "https://vps.spraxxx.tv/provision"
              (Obj [("email", Str "ada@example.test");
                    ("verification_session_id", Str "vs_2");
                    ("product_id", Str "builder-pass");
                    ("promo_code", Null);
                    ("checkout_session_id", Null)])
              [("Content-Type", "application/json")] (Some 20000);
            SqlRun (@V1.parameters sample 1000
                      (Obj [("checkout_session_id", Null);
                            ("verification_session_id", Str "vs_2");
                            ("customer_email", Str "ada@example.test");
                            ("product_id", Str "builder-pass");
                            ("promo_code", Null);
                            ("status", Str "fulfilled");
                            ("payload",
                             Obj [("provision", answer_with_creds);
                                  ("fulfilled_at",
                                   Str "2024-01-01T00:00:00.000Z")])]));
            Mail "welcome@spraxxx.tv" (Str "ada@example.test")
              "SPRAXXX Verification Complete — Your Access" welcome_text_with_creds]
           "welcome@spraxxx.tv" (Str "ada@example.test")
           "SPRAXXX Verification Complete — Your Access" welcome_text_with_creds);
    [reflexivity | reflexivity | reflexivity | right; right; left; reflexivity].
Defined.

Lemma welcome_mail_without_access_witness :
  @V1.welcome_mail sample Undefined
  = "<p>Welcome to the Nation.</p>
     <p>Your identity has been verified and your profile is active.</p>
     
     <p>Questions? Reply to this email.</p>".
Proof.
  apply (@welcome_mail_without_access sample Undefined);
    reflexivity.
Defined.

(** ** Relations between the table before and after a request *)

Section Steps.

Variable R : table -> table -> Prop.
Hypothesis R_refl : forall t, R t t.
Hypothesis R_trans : forall t1 t2 t3, R t1 t2 -> R t2 t3 -> R t1 t3.

Lemma step_pure {A} (m : M A) : (forall o w, db (snd (m o w)) = db w) -> moves R m.
Proof. intros E o w. rewrite E. apply R_refl. Qed.

Lemma step_ret {A} (a : A) : moves R (ret a).
Proof. now apply step_pure. Qed.

Lemma step_throw {A} (e : error) : moves R (@throw A e).
Proof. now apply step_pure. Qed.

Lemma step_ask : moves R ask.
Proof. now apply step_pure. Qed.

Lemma step_emit (e : effect) : moves R (emit e).
Proof. now apply step_pure. Qed.

Lemma step_bind {A B} (m : M A) (k : A -> M B) :
  moves R m -> (forall a, moves R (k a)) -> moves R (bind m k).
Proof.
  intros Hm Hk o w. unfold bind. specialize (Hm o w).
  destruct (m o w) as [[e|a] w']; cbn [snd] in *; [assumption|].
  eapply R_trans; [exact Hm|apply Hk].
Qed.

Lemma step_try_catch {A} (m : M A) (handler : error -> M A) :
  moves R m -> (forall e, moves R (handler e)) -> moves R (try_catch m handler).
Proof.
  intros Hm Hh o w. unfold try_catch. specialize (Hm o w).
  destruct (m o w) as [[e|a] w']; cbn [snd] in *; [|assumption].
  eapply R_trans; [exact Hm|apply Hh].
Qed.

Lemma step_member (o : value) (k : string) : moves R (member o k).
Proof. unfold member. destruct (nullish o); [apply step_throw|apply step_ret]. Qed.

Lemma step_axios_post url body headers timeout :
  moves R (axios_post url body headers timeout).
Proof.
  unfold axios_post. apply step_bind; [apply step_emit|intros _].
  apply step_bind; [apply step_ask|intros o].
  destruct (relay o); [apply step_ret|apply step_throw].
Qed.

Lemma step_sendMail from to subject html :
  moves R (transporter_sendMail from to subject html).
Proof.
  unfold transporter_sendMail. apply step_bind; [apply step_emit|intros _].
  apply step_bind; [apply step_ask|intros o].
  destruct (smtp_ok o); [apply step_ret|apply step_throw].
Qed.

End Steps.

Ltac step_through Rr Rt upsert_lemma :=
  repeat match goal with
         | |- moves _ (bind _ _) => apply (step_bind _ Rt); [|intro]
         | |- moves _ (try_catch _ _) => apply (step_try_catch _ Rt); [|intro]
         | |- moves _ (if ?b then _ else _) => destruct b
         | |- moves _ (match ?x with _ => _ end) => destruct x
         | |- moves _ (ret _) => apply (step_ret _ Rr)
         | |- moves _ (throw _) => apply (step_throw _ Rr)
         | |- moves _ ask => apply (step_ask _ Rr)
         | |- moves _ (emit _) => apply (step_emit _ Rr)
         | |- moves _ (member _ _) => apply (step_member _ Rr)
         | |- moves _ (axios_post _ _ _ _) => apply (step_axios_post _ Rr Rt)
         | |- moves _ (transporter_sendMail _ _ _ _) => apply (step_sendMail _ Rr Rt)
         | |- moves _ _ => apply upsert_lemma
         end.

Section Anchors.
Context `{Platform}.

Lemma anchored_refl (t : table) : Forall2 anchored t t.
Proof. induction t; constructor; auto. split; reflexivity. Qed.

Lemma grows_refl (t : table) : grows t t.
Proof. exists t, []. split; [now rewrite app_nil_r|apply anchored_refl]. Qed.

Lemma Forall2_anchored_trans (t1 t2 t3 : table) :
  Forall2 anchored t1 t2 -> Forall2 anchored t2 t3 -> Forall2 anchored t1 t3.
Proof.
  intros F. revert t3. induction F as [|a b l l' [C T] F IH]; intros t3 G;
    inversion G as [|b' c l'' l3 [C' T'] G']; subst; constructor; auto.
  split; congruence.
Qed.

Lemma grows_trans (t1 t2 t3 : table) : grows t1 t2 -> grows t2 t3 -> grows t1 t3.
Proof.
  intros (k1 & a1 & -> & F1) (k2 & a2 & -> & F2).
  apply Forall2_app_inv_l in F2. destruct F2 as (k2' & a2' & Fk & Fa & ->).
  exists k2', (a2' ++ a2). split; [now rewrite app_assoc|].
  eapply Forall2_anchored_trans; eauto.
Qed.

(** The statement, whatever its SET clause does to the other columns,
    keeps every stored row in place with its checkout id and creation
    time, and appends at most one row. *)
Lemma insert_on_conflict_grows (u : bool) (f : Row -> Row -> Row) (e : Row)
    (t t' : table) :
  (forall x old, anchored old (f x old)) ->
  insert_on_conflict u f e t = Some t' ->
  grows t t' /\ (length t <= length t' <= S (length t))%nat.
Proof.
  intros Hf. unfold insert_on_conflict.
  destruct (find_conflict (checkout_session_id e) t) as [[[b h] a]|] eqn:F.
  - apply find_conflict_Some in F. destruct F as (-> & _ & _).
    destruct (u && _); [discriminate|]. intros E; inversion E; subst.
    split; [|rewrite !length_app; cbn [length]; lia].
    exists (b ++ f e h :: a), []. split; [now rewrite app_nil_r|].
    apply Forall2_app; [apply anchored_refl|].
    constructor; [apply Hf|apply anchored_refl].
  - destruct (u && _); [discriminate|]. intros E; inversion E; subst.
    split; [|rewrite length_app; cbn [length]; lia].
    exists t, [e]. split; [reflexivity|apply anchored_refl].
Qed.

Lemma grows_upsert (row : value) : moves grows (V1.upsert row).
Proof.
  intros o w.
  destruct (nullish row) eqn:N;
    [rewrite upsert_of_nothing by assumption; apply grows_refl|].
  rewrite upsert_run by assumption.
  destruct (insert_on_conflict _ _ _ _) as [t|] eqn:E; cbn [snd db];
    [|apply grows_refl].
  eapply insert_on_conflict_grows; [|exact E]. intros x old. split; reflexivity.
Qed.

Lemma grows_upsert_v2 (u : bool) (row : value) : moves grows (V2.upsert u row).
Proof.
  intros o w. unfold V2.upsert, bind, member, ask, emit.
  destruct (nullish row); [apply grows_refl|]. cbn [ret db log].
  destruct (insert_on_conflict _ _ _ _) as [t|] eqn:E; cbn [snd db];
    [|apply grows_refl].
  eapply insert_on_conflict_grows; [|exact E]. intros x old. split; reflexivity.
Qed.

Lemma grows_dispatch (event : value) : moves grows (V1.dispatch event).
Proof.
  unfold V1.dispatch, V1.handle, V1.provisionAndWelcome, V1.sendMail.
  step_through grows_refl grows_trans grows_upsert.
Qed.

Lemma grows_dispatch_v2 (u : bool) (event : value) : moves grows (V2.dispatch u event).
Proof.
  unfold V2.dispatch, V2.handle, V2.notify.
  step_through grows_refl grows_trans (grows_upsert_v2 u).
Qed.

Lemma grows_nth_error (t t' : table) (i : nat) (r : Row) :
  grows t t' -> nth_error t i = Some r ->
  exists r', nth_error t' i = Some r' /\ anchored r r'.
Proof.
  intros (kept & added & -> & F) E.
  destruct (Forall2_nth_error _ _ _ F i r E) as (r' & E' & A).
  exists r'. split; [|exact A].
  rewrite nth_error_app1; [exact E'|].
  apply nth_error_Some. congruence.
Qed.

(** X9.  No request of the first or the second variant deletes or moves a
    row, and none changes a row's checkout id or creation time: the row
    at any position is, after the request, still at that position with
    the same [checkout_session_id] and [created_at]. *)
Theorem rows_stay_anchored (u : bool) (event : value) (o : Outcomes) (w : world)
    (i : nat) (r : Row) :
  nth_error (db w) i = Some r ->
  (exists r', nth_error (db (snd (V1.dispatch event o w))) i = Some r'
              /\ checkout_session_id r' = checkout_session_id r
              /\ created_at r' = created_at r)
  /\ (exists r', nth_error (db (snd (V2.dispatch u event o w))) i = Some r'
                 /\ checkout_session_id r' = checkout_session_id r
                 /\ created_at r' = created_at r).
Proof.
  intros E. split.
  - destruct (grows_nth_error _ _ i r (grows_dispatch event o w) E) as (r' & E' & A).
    exists r'. destruct A. auto.
  - destruct (grows_nth_error _ _ i r (grows_dispatch_v2 u event o w) E)
      as (r' & E' & A).
    exists r'. destruct A. auto.
Qed.

End Anchors.

(** ** What the first variant's handlers never do *)

Section Never.
Context `{Platform}.

(** X10.  An [identity.verification_session.verified] event whose session id is
    a non-empty string is never acknowledged and never leads to a mail:
    whatever the table holds and whatever the provisioner and the
    transport do, the answer is 500, no mail is handed to the transport,
    and the table is left as it was or gains one row with status
    [verified]. *)
Theorem verified_event_never_mails (o : Outcomes) (w : world) (event : value)
    (id : string) :
  get event "type" = Str "identity.verification_session.verified" ->
  get (get (get event "data") "object") "id" = Str id ->
  id <> "" ->
  exists added,
    fst (V1.dispatch event o w) = inr server_error
    /\ log (snd (V1.dispatch event o w)) = log w ++ added
    /\ existsb is_mail added = false
    /\ (db (snd (V1.dispatch event o w)) = db w
        \/ exists row, db (snd (V1.dispatch event o w)) = db w ++ [row]
                       /\ status row = Some "verified").
Proof.
  intros Hty Hid Hne.
  pose proof (get_Str_object _ _ _ Hid) as Ns.
  destruct (verified_path o w event Hty Ns)
    as (row & args & R & Rc & Rv & Rs & Ac & Av).
  rewrite Hid in Rv, Av.
  destruct (verification_cells (now o) row id Rc Rv Hne) as [C V].
  rewrite R, upsert_run by row_is_object. clear R.
  destruct (holds_verification (Some id) (db w)) eqn:Held.
  - rewrite (insert_null_held V1.do_update _ _ C) by now rewrite V.
    exists [SqlRun (V1.parameters (now o) row)]. cbn [fst snd db log].
    split; [reflexivity|]. split; [reflexivity|]. split; [reflexivity|now left].
  - rewrite (insert_null_fresh V1.do_update true _ _ C) by now rewrite V.
    destruct (provisionAndWelcome_run args o
                {| db := db w ++ [V1.parameters (now o) row];
                   log := log w ++ [SqlRun (V1.parameters (now o) row)] |})
      as (post & frow & mail & P & Hpost & _ & Hrow).
    rewrite P. clear P. cbn [db log].
    assert (S : status (V1.parameters (now o) row) = Some "verified")
      by (cbn [V1.parameters status]; now rewrite Rs).
    destruct (relay o) as [data|].
    + cbn zeta. destruct (Hrow data) as (_ & Fc & Fv).
      rewrite Ac in Fc. rewrite Av in Fv.
      destruct (verification_cells (now o) (frow data) id Fc Fv Hne) as [C2 V2].
      rewrite (insert_null_held V1.do_update _ _ C2)
        by (rewrite V2; now apply holds_verification_snoc).
      eexists. cbn [fst snd db log]. rewrite <- app_assoc.
      split; [reflexivity|]. split; [reflexivity|]. split; [|right; eauto].
      cbn [existsb app is_mail]. now rewrite (http_is_not_mail _ Hpost).
    + eexists. cbn [fst snd db log]. rewrite <- app_assoc.
      split; [reflexivity|]. split; [reflexivity|]. split; [|right; eauto].
      cbn [existsb app is_mail]. now rewrite (http_is_not_mail _ Hpost).
Qed.

(** X11.  A [checkout.session.completed] or
    [identity.verification_session.requires_input] event runs exactly one
    SQL statement and nothing else: the provisioner is not called and no
    mail is sent, whether the statement is accepted (200) or refused
    (500). *)
Theorem checkout_and_requires_input_only_write (o : Outcomes) (w : world)
    (event : value) :
  get event "type" = Str "checkout.session.completed"
  \/ get event "type" = Str "identity.verification_session.requires_input" ->
  nullish (get (get event "data") "object") = false ->
  exists write,
    log (snd (V1.dispatch event o w)) = log w ++ [SqlRun write]
    /\ ((fst (V1.dispatch event o w) = inr received
         /\ insert_on_conflict true V1.do_update write (db w)
            = Some (db (snd (V1.dispatch event o w))))
        \/ (fst (V1.dispatch event o w) = inr server_error
            /\ insert_on_conflict true V1.do_update write (db w) = None
            /\ db (snd (V1.dispatch event o w)) = db w)).
Proof.
  intros [Hty|Hty] Ns.
  - destruct (checkout_path o w event Hty Ns) as (row & R & _ & _ & S & _).
    rewrite R, upsert_run by row_is_object. exists (V1.parameters (now o) row).
    destruct (insert_on_conflict _ _ _ _); cbn [fst snd db log]; auto.
  - destruct (requires_input_path o w event Hty Ns) as (row & R & C & _).
    rewrite R, upsert_run by row_is_object. exists (V1.parameters (now o) row).
    destruct (insert_on_conflict _ _ _ _); cbn [fst snd db log]; auto.
Qed.

(** X12.  An event of a handled type that carries no object ([data] missing, or
    [data.object] missing or null) makes the first and the second variant
    answer 500 without running any statement, calling the provisioner or
    sending a mail; the third variant, whose reads are outside any [try],
    rejects without answering at all. *)
Theorem event_without_object (u : bool) (req : Request) (o : Outcomes) (w : world)
    (event : value) :
  get event "type" = Str "checkout.session.completed"
  \/ get event "type" = Str "identity.verification_session.verified"
  \/ get event "type" = Str "identity.verification_session.requires_input" ->
  nullish (get (get event "data") "object") = true ->
  V1.dispatch event o w = (inr server_error, w)
  /\ V2.dispatch u event o w = (inr server_error, w)
  /\ (get event "type" = Str "checkout.session.completed" ->
      constructEvent (raw_body req) (stripe_signature req) (env "STRIPE_WEBHOOK_SECRET")
      = inr event ->
      V3.webhook req o w = (inl TypeError, w)).
Proof.
  intros Hty Hn.
  assert (Ne : nullish event = false).
  { destruct Hty as [T|[T|T]]; exact (get_Str_object _ _ _ T). }
  repeat split.
  - unfold V1.dispatch, try_catch, V1.handle, bind, member. rewrite Ne. cbn [ret].
    destruct Hty as [T|[T|T]]; rewrite T; cbn -[nullish];
      destruct (nullish (get event "data")); cbn -[nullish]; try reflexivity;
      rewrite Hn; reflexivity.
  - unfold V2.dispatch, try_catch, V2.handle, bind, member. rewrite Ne. cbn [ret].
    destruct Hty as [T|[T|T]]; rewrite T; cbn -[nullish];
      destruct (nullish (get event "data")); cbn -[nullish]; try reflexivity;
      rewrite Hn; reflexivity.
  - intros T E. unfold V3.webhook. rewrite E. unfold bind, member.
    rewrite Ne. cbn [ret]. rewrite T. cbn -[nullish].
    destruct (nullish (get event "data")); cbn -[nullish]; try reflexivity.
    rewrite Hn. reflexivity.
Qed.

End Never.

(** ** Rows the first variant writes *)

Section Complete.
Context `{Platform}.

Lemma to_cell_truthy (v : value) : truthy v = true -> to_cell v <> None.
Proof. destruct v; cbn; congruence. Qed.

Lemma truthy_or_default (v : value) (s : string) :
  s <> "" -> truthy (Js.or v (Str s)) = true.
Proof.
  intros N. unfold Js.or. destruct (truthy v) eqn:T; [exact T|now apply truthy_Str].
Qed.

Lemma product_default_cell (v : value) :
  to_cell (Js.or (Js.or v (Str "builder-pass")) Null) <> None.
Proof.
  assert (T : truthy (Js.or v (Str "builder-pass")) = true)
    by (apply truthy_or_default; discriminate).
  unfold Js.or at 1. rewrite T. now apply to_cell_truthy.
Qed.

Lemma insert_on_conflict_complete (e : Row) (t t' : table) :
  complete e -> Forall complete t ->
  insert_on_conflict true V1.do_update e t = Some t' -> Forall complete t'.
Proof.
  intros He Ht. unfold insert_on_conflict.
  destruct (find_conflict (checkout_session_id e) t) as [[[b h] a]|] eqn:F.
  - apply find_conflict_Some in F. destruct F as (-> & _ & _).
    destruct (true && _); [discriminate|]. intros E; inversion E; subst.
    apply Forall_app in Ht. destruct Ht as [Hb Hha]. inversion Hha; subst.
    apply Forall_app. split; [exact Hb|]. constructor; [|assumption].
    destruct He as (P & S & Y). unfold complete, V1.do_update.
    cbn [product_id status payload]. repeat split; auto.
    destruct (product_id e); [discriminate|contradiction].
  - destruct (true && _); [discriminate|]. intros E; inversion E; subst.
    apply Forall_app. split; [exact Ht|]. constructor; [exact He|constructor].
Qed.

Lemma keeps_complete_upsert (row : value) :
  to_cell (Js.or (get row "product_id") Null) <> None ->
  to_cell (get row "status") <> None ->
  keeps (Forall complete) (V1.upsert row).
Proof.
  intros P S o w Hw.
  destruct (nullish row) eqn:N; [now rewrite upsert_of_nothing|].
  rewrite upsert_run by assumption.
  destruct (insert_on_conflict _ _ _ _) as [t|] eqn:E; cbn [snd db]; [|assumption].
  eapply insert_on_conflict_complete; [|exact Hw|exact E].
  unfold complete. cbn [V1.parameters product_id status payload].
  repeat split; auto. discriminate.
Qed.

Ltac handler_row :=
  cbn -[Js.or to_cell truthy is_str];
  first [ apply product_default_cell
        | discriminate
        | match goal with
          | |- context [is_str ?a "paid"] => destruct (is_str a "paid"); discriminate
          end ].

Lemma keeps_complete_dispatch (event : value) :
  keeps (Forall complete) (V1.dispatch event).
Proof.
  unfold V1.dispatch, V1.handle, V1.provisionAndWelcome, V1.sendMail.
  repeat first [ apply keeps_complete_upsert; handler_row | keeps_step ].
Qed.

(** X13.  Every row the first variant's handler writes has a product (the
    default [builder-pass] when the event names none), a status and a
    payload: delivering any sequence of events to a table whose rows have
    the three leaves a table whose rows have the three. *)
Theorem handler_rows_are_complete (events : list (Outcomes * value)) (w : world) :
  Forall complete (db w) ->
  Forall complete (db (snd (deliver V1.dispatch events w))).
Proof.
  revert w. induction events as [|[o event] rest IH]; intros w Hw; [exact Hw|].
  cbn [deliver]. pose proof (keeps_complete_dispatch event o w Hw) as K.
  destruct (V1.dispatch event o w) as [r w']. cbn [snd] in K.
  specialize (IH w' K). destruct (deliver V1.dispatch rest w') as [rs w''].
  exact IH.
Qed.

End Complete.

(** ** When [upsert] is refused *)

Section Refusal.
Context `{Platform}.

Lemma own_cell_not_elsewhere (col : Row -> cell) (before after : table) (r : Row) :
  distinct (map col (before ++ r :: after)) ->
  existsb (fun x => same_key (col r) (col x)) (before ++ after) = false.
Proof.
  rewrite !map_app. cbn [map].
  induction before as [|x b IH]; cbn [map app distinct existsb].
  - intros [E _]. clear - E. induction after as [|y a IH]; cbn [map existsb] in *;
      [reflexivity|].
    apply orb_false_iff in E. destruct E as [-> E]. auto.
  - intros [E D]. rewrite existsb_app in E. cbn [existsb] in E.
    apply orb_false_iff in E. destruct E as [E1 E2].
    apply orb_false_iff in E2. destruct E2 as [E2 E3].
    rewrite same_key_sym, E2. auto.
Qed.

Lemma existsb_false_In {A} (p : A -> bool) (l : list A) (x : A) :
  existsb p l = false -> In x l -> p x = false.
Proof.
  intros E I. destruct (p x) eqn:P; [|reflexivity].
  assert (existsb p l = true) by (apply existsb_exists; eauto). congruence.
Qed.

(** When the statement of [upsert] is refused, in terms of the table. *)
Lemma insert_on_conflict_refused (e : Row) (t : table) :
  well_keyed t ->
  insert_on_conflict true V1.do_update e t = None
  <-> exists r,
        In r t
        /\ same_key (verification_session_id e) (verification_session_id r) = true
        /\ same_key (checkout_session_id e) (checkout_session_id r) = false.
Proof.
  intros [Dc Dv].
  enough (G : (match insert_on_conflict true V1.do_update e t with
               | Some _ => inr tt
               | None => inl SQLITE_CONSTRAINT
               end = inl SQLITE_CONSTRAINT :> error + unit)
              <-> exists r,
                    In r t
                    /\ same_key (verification_session_id e) (verification_session_id r)
                       = true
                    /\ same_key (checkout_session_id e) (checkout_session_id r) = false).
  { rewrite <- G. destruct (insert_on_conflict _ _ _ _);
      split; congruence. }
  unfold insert_on_conflict.
  destruct (find_conflict (checkout_session_id e) t) as [[[b h] a]|] eqn:F.
  - apply find_conflict_Some in F. destruct F as (Et & K & _).
    rewrite Et in Dc, Dv. rewrite Et. clear Et.
    pose proof (own_cell_not_elsewhere checkout_session_id _ _ _ Dc) as Oc.
    pose proof (own_cell_not_elsewhere verification_session_id _ _ _ Dv) as Ov.
    destruct (same_key_true _ _ K) as (k & Ke & Kh).
    cbn [andb V1.do_update verification_session_id].
    split.
    + destruct (holds_verification _ (b ++ a)) eqn:V; [intros _|discriminate].
      destruct (verification_session_id e) as [v|] eqn:Ev; cbn [COALESCE] in V.
      * unfold holds_verification in V. apply existsb_exists in V.
        destruct V as (r & I & S). exists r. repeat split; auto.
        -- apply in_app_or in I. apply in_or_app. cbn [In]. tauto.
        -- rewrite Ke, <- Kh. exact (existsb_false_In _ _ _ Oc I).
      * unfold holds_verification in V. congruence.
    + intros (r & I & S & N).
      assert (Ir : In r (b ++ a)).
      { apply in_app_or in I. apply in_or_app. destruct I as [I|[I|I]]; auto.
        subst r. congruence. }
      destruct (same_key_true _ _ S) as (v & Ev & _). rewrite Ev. cbn [COALESCE].
      rewrite <- Ev.
      assert (V : holds_verification (verification_session_id e) (b ++ a) = true)
        by (apply existsb_exists; eauto).
      now rewrite V.
  - apply find_conflict_None in F. cbn [andb]. split.
    + destruct (holds_verification _ t) eqn:V; [intros _|discriminate].
      apply existsb_exists in V. destruct V as (r & I & S).
      exists r. repeat split; auto. exact (existsb_false_In _ _ _ F I).
    + intros (r & I & S & _).
      assert (V : holds_verification (verification_session_id e) t = true)
        by (apply existsb_exists; eauto).
      now rewrite V.
Qed.

(** X14.  When [upsert] rejects, and why.  A row that is [null] or
    [undefined] makes it reject with a TypeError before any statement is
    run.  For any other row, on a table without duplicate session ids,
    the statement is refused, leaving the table as it was, exactly when
    some stored row holds the incoming verification id without being the
    row of the incoming checkout id; it is accepted exactly when no
    stored row does. *)
Theorem upsert_refused_iff (row : value) (o : Outcomes) (w : world) :
  well_keyed (db w) ->
  let incoming := V1.parameters (now o) row in
  let clash :=
    exists r,
      In r (db w)
      /\ same_key (verification_session_id incoming) (verification_session_id r) = true
      /\ same_key (checkout_session_id incoming) (checkout_session_id r) = false in
  (nullish row = true -> V1.upsert row o w = (inl TypeError, w))
  /\ (nullish row = false ->
      (fst (V1.upsert row o w) = inl SQLITE_CONSTRAINT <-> clash)
      /\ (fst (V1.upsert row o w) = inr tt <-> ~ clash)
      /\ (clash -> db (snd (V1.upsert row o w)) = db w)).
Proof.
  intros Hw e clash. split; [apply upsert_of_nothing|]. intros N.
  rewrite upsert_run by assumption. fold e.
  pose proof (insert_on_conflict_refused e (db w) Hw) as R. fold clash in R.
  destruct (insert_on_conflict true V1.do_update e (db w)) as [t|]; cbn [fst snd db].
  - split; [|split].
    + split; [discriminate|]. intros C. apply R in C. discriminate.
    + split; [|reflexivity]. intros _ C. apply R in C. discriminate.
    + intros C. apply R in C. discriminate.
  - split; [|split].
    + split; [intros _; now apply R|reflexivity].
    + split; [discriminate|]. intros C. exfalso. apply C. now apply R.
    + reflexivity.
Qed.

End Refusal.

(** ** The health snapshot of a table that has rows *)

Section Health.

Lemma one_status_at_most (t : table) :
  0 <= count_status "verified" t + count_status "fulfilled" t <= Z.of_nat (length t).
Proof.
  unfold count_status. induction t as [|r t IH]; cbn [filter length]; [lia|].
  destruct (status r) as [s|]; cbn [cell_is].
  - destruct (String.eqb_spec s "verified"), (String.eqb_spec s "fulfilled");
      cbn [length]; try lia. subst. discriminate.
  - lia.
Qed.

(** X15.  On a table with at least one row the snapshot answers 200 with
    [ok: true] and three numbers: the rows whose status is [verified],
    the rows whose status is [fulfilled], and the rows created at most a
    day (86400 seconds) before the query; the first two together never
    exceed the number of rows.  When the query fails the answer is 500
    with [ok: false]. *)
Theorem health_snapshot_counts (timestamp : Z) (r : Row) (t : table) :
  V1.api_health false timestamp (r :: t)
  = mkResponse 200
      (Json (Obj [("ok", Bool true);
                  ("verified", Num (count_status "verified" (r :: t)));
                  ("fulfilled", Num (count_status "fulfilled" (r :: t)));
                  ("events_24h",
                   Num (Z.of_nat (length (filter (fun x => timestamp - 86400 <=? created_at x)
                                                 (r :: t)))))]))
  /\ 0 <= count_status "verified" (r :: t) + count_status "fulfilled" (r :: t)
       <= Z.of_nat (length (r :: t))
  /\ V1.api_health true timestamp (r :: t)
     = mkResponse 500 (Json (Obj [("ok", Bool false)])).
Proof.
  split; [|split; [apply one_status_at_most|reflexivity]].
  unfold V1.api_health, V1.health_row, count_status.
  rewrite !SUM_indicator. reflexivity.
Qed.

End Health.

(** ** The second variant *)

Section Second.
Context `{Platform}.

Lemma upsert_v2_unfold (u : bool) (row : value) (o : Outcomes) (w : world) :
  nullish row = false ->
  V2.upsert u row o w =
  match insert_on_conflict u V2.do_update (V2.parameters (now o) row) (db w) with
  | Some t =>
      (inr tt, {| db := t; log := log w ++ [SqlRun (V2.parameters (now o) row)] |})
  | None =>
      (inl SQLITE_CONSTRAINT,
       {| db := db w; log := log w ++ [SqlRun (V2.parameters (now o) row)] |})
  end.
Proof.
  intros N. unfold V2.upsert, bind, member, ask, emit. rewrite N. cbn [ret db log].
  destruct (insert_on_conflict _ _ _ _); reflexivity.
Qed.

Ltac enter_v2 Hty Ns :=
  pose proof (get_Str_object _ _ _ Hty) as Ne;
  pose proof (nullish_parent _ _ Ns) as Nd;
  match goal with
  | |- context [V2.dispatch ?u ?event ?o ?w] =>
      remember (V2.dispatch u event o w) as run eqn:R;
      unfold V2.dispatch, try_catch, V2.handle, bind, member in R;
      rewrite Ne in R; cbn [ret] in R; rewrite Hty in R;
      cbn -[V2.upsert axios_post V2.notify truthy] in R; rewrite Nd in R;
      cbn -[V2.upsert axios_post V2.notify truthy] in R; rewrite Ns in R;
      cbn -[V2.upsert axios_post V2.notify truthy] in R
  end.

(** X16.  A [verified] event whose metadata carries no e-mail address is
    recorded and acknowledged with 200, but nothing is provisioned: the
    provisioner is not called and no mail is sent; the table gains one
    row with status [verified] and no customer e-mail. *)
Theorem verified_without_email_is_acknowledged (u : bool) (o : Outcomes) (w : world)
    (event : value) (id : string) :
  get event "type" = Str "identity.verification_session.verified" ->
  get (get (get event "data") "object") "id" = Str id ->
  id <> "" ->
  truthy (get (get (get (get event "data") "object") "metadata") "email") = false ->
  u = false \/ holds_verification (Some id) (db w) = false ->
  exists row,
    V2.dispatch u event o w
    = (inr received, {| db := db w ++ [row]; log := log w ++ [SqlRun row] |})
    /\ status row = Some "verified"
    /\ verification_session_id row = Some id
    /\ customer_email row = None.
Proof.
  intros Hty Hid Hne Hmail Hfree.
  pose proof (get_Str_object _ _ _ Hid) as Ns.
  enter_v2 Hty Ns. rewrite Hmail in R.
  match type of R with context [V2.upsert u ?r o w] => set (row := r) in * end.
  rewrite upsert_v2_unfold in R by reflexivity.
  assert (C : checkout_session_id (V2.parameters (now o) row) = None) by reflexivity.
  assert (V : verification_session_id (V2.parameters (now o) row) = Some id).
  { subst row. cbn [V2.parameters verification_session_id]. cbn -[Js.or to_cell].
    rewrite Hid, or_Str by assumption. reflexivity. }
  assert (I : insert_on_conflict u V2.do_update (V2.parameters (now o) row) (db w)
              = Some (db w ++ [V2.parameters (now o) row])).
  { unfold insert_on_conflict. rewrite C, find_conflict_null, V.
    destruct Hfree as [->| ->]; [reflexivity|now rewrite andb_false_r]. }
  rewrite I in R. cbn in R. subst run.
  exists (V2.parameters (now o) row). repeat split; auto.
  subst row. cbn [V2.parameters customer_email]. cbn -[Js.or to_cell].
  now apply to_cell_falsy.
Qed.

(** X17.  Where the verification id is not UNIQUE, a
    [identity.verification_session.requires_input] event adds a row
    whatever the table already holds: each delivery of the same event
    leaves one more row with the same verification id. *)
Theorem requires_input_always_appends (o : Outcomes) (w : world) (event : value) :
  get event "type" = Str "identity.verification_session.requires_input" ->
  nullish (get (get event "data") "object") = false ->
  exists row,
    V2.dispatch false event o w
    = (inr received, {| db := db w ++ [row]; log := log w ++ [SqlRun row] |})
    /\ status row = Some "needs_input"
    /\ checkout_session_id row = None
    /\ verification_session_id row
       = to_cell (Js.or (get (get (get event "data") "object") "id") Null).
Proof.
  intros Hty Ns. enter_v2 Hty Ns.
  match type of R with context [V2.upsert false ?r o w] => set (row := r) in * end.
  rewrite upsert_v2_unfold in R by reflexivity.
  assert (C : checkout_session_id (V2.parameters (now o) row) = None) by reflexivity.
  assert (I : insert_on_conflict false V2.do_update (V2.parameters (now o) row) (db w)
              = Some (db w ++ [V2.parameters (now o) row])).
  { unfold insert_on_conflict. now rewrite C, find_conflict_null. }
  rewrite I in R. cbn in R. subst run.
  exists (V2.parameters (now o) row). repeat split; auto.
Qed.

(** X18.  A [verified] event that carries an e-mail address and whose
    call to the provisioner succeeds is never recorded as this variant
    means to.  The handler's second statement passes no checkout id, so
    it is an INSERT.  Where the verification id is UNIQUE it is refused:
    the answer is 500, no mail is sent and the row stays [verified].
    Where it is not, a second row with the same verification id is
    added: the mail is sent and the table holds a [verified] and a
    [fulfilled] row for the one session. *)
Theorem verified_with_email_never_finalizes (u : bool) (o : Outcomes) (w : world)
    (event : value) (id : string) (data : value) :
  get event "type" = Str "identity.verification_session.verified" ->
  get (get (get event "data") "object") "id" = Str id ->
  id <> "" ->
  truthy (get (get (get (get event "data") "object") "metadata") "email") = true ->
  u = false \/ holds_verification (Some id) (db w) = false ->
  relay o = Some data ->
  exists first post second,
    is_http post = true
    /\ status first = Some "verified" /\ status second = Some "fulfilled"
    /\ verification_session_id first = Some id
    /\ verification_session_id second = Some id
    /\ (if u then
          V2.dispatch u event o w
          = (inr server_error,
             {| db := db w ++ [first];
                log := log w ++ [SqlRun first; post; SqlRun second] |})
        else
          exists mail,
            is_mail mail = true
            /\ V2.dispatch u event o w
               = (if smtp_ok o then inr received else inr server_error,
                  {| db := db w ++ [first; second];
                     log := log w ++ [SqlRun first; post; SqlRun second; mail] |})).
Proof.
  intros Hty Hid Hne Hmail Hfree Hrelay.
  pose proof (get_Str_object _ _ _ Hid) as Ns.
  enter_v2 Hty Ns. rewrite Hmail in R.
  match type of R with context [V2.upsert u ?r o w] => set (row := r) in * end.
  rewrite upsert_v2_unfold in R by reflexivity.
  assert (C : checkout_session_id (V2.parameters (now o) row) = None) by reflexivity.
  assert (V : verification_session_id (V2.parameters (now o) row) = Some id).
  { subst row. cbn [V2.parameters verification_session_id]. cbn -[Js.or to_cell].
    rewrite Hid, or_Str by assumption. reflexivity. }
  assert (I : insert_on_conflict u V2.do_update (V2.parameters (now o) row) (db w)
              = Some (db w ++ [V2.parameters (now o) row])).
  { unfold insert_on_conflict. rewrite C, find_conflict_null, V.
    destruct Hfree as [->| ->]; [reflexivity|now rewrite andb_false_r]. }
  rewrite I in R. clear I.
  unfold axios_post, bind, emit, ask in R. rewrite Hrelay in R.
  cbn -[V2.upsert V2.notify] in R.
  match type of R with context [V2.upsert u ?r o ?w1] => set (final := r) in * end.
  rewrite upsert_v2_unfold in R by reflexivity. cbn [db log] in R.
  assert (C2 : checkout_session_id (V2.parameters (now o) final) = None) by reflexivity.
  assert (V2 : verification_session_id (V2.parameters (now o) final) = Some id).
  { subst final. cbn [V2.parameters verification_session_id]. cbn -[Js.or to_cell].
    rewrite Hid, or_Str by assumption. reflexivity. }
  assert (Held : holds_verification (Some id) (db w ++ [V2.parameters (now o) row])
                 = true) by now apply holds_verification_snoc.
  unfold insert_on_conflict in R. rewrite C2, find_conflict_null, V2, Held in R.
  match type of R with
  | context [HttpPost ?a ?b ?c ?d] => set (post := HttpPost a b c d) in *
  end.
  assert (S1 : status (V2.parameters (now o) row) = Some "verified") by reflexivity.
  assert (S2 : status (V2.parameters (now o) final) = Some "fulfilled") by reflexivity.
  exists (V2.parameters (now o) row), post, (V2.parameters (now o) final).
  do 5 (split; [auto|]).
  destruct u.
  - cbn in R. subst run. rewrite <- !app_assoc. reflexivity.
  - cbn -[V2.notify] in R. unfold V2.notify, transporter_sendMail, bind, emit, ask in R.
    cbn in R.
    match type of R with
    | context [Mail ?a ?b ?c ?d] => exists (Mail a b c d)
    end.
    split; [reflexivity|]. subst run.
    destruct (smtp_ok o); cbn; rewrite <- !app_assoc; reflexivity.
Qed.

End Second.

(** ** The third variant *)

Section Third.
Context `{Platform}.












Lemma keeps_select_by_checkout (P : table -> Prop) (key : value) :
  keeps P (V3.select_by_checkout key).
Proof. intros o w Hw. exact Hw. Qed.

Lemma keeps_run_insert (callback : bool) (new : Row) :
  keeps (fun t => distinct (map checkout_session_id t)) (V3.run_insert callback new).
Proof.
  intros o w Hw. unfold V3.run_insert, bind, emit, insert. cbn [db log].
  destruct (holds_checkout _ (db w)) eqn:F; cbn [snd db];
    [destruct callback; exact Hw|].
  rewrite map_app. cbn [map]. apply distinct_snoc; [exact Hw|].
  now rewrite <- holds_checkout_map.
Qed.

(** X24.  The third variant never stores two rows with the same checkout id:
    whatever the request, a table without such a pair is left without
    one. *)
Theorem checkout_ids_stay_distinct (req : Request) (o : Outcomes) (w : world) :
  distinct (map checkout_session_id (db w)) ->
  distinct (map checkout_session_id (db (snd (V3.webhook req o w)))).
Proof.
  revert o w.
  change (keeps (fun t => distinct (map checkout_session_id t)) (V3.webhook req)).
  unfold V3.webhook, V3.process, V3.fulfill.
  repeat first [ apply keeps_select_by_checkout | apply keeps_run_insert | keeps_step ].
Qed.

End Third.

(** ** The properties above on the sample inputs *)

Lemma escapeHTML_injective_witness : "5 > 3 & <b>" = "5 > 3 & <b>".
Proof.
  apply (escapeHTML_injective "<p>" "5 > 3 & <b>" "5 > 3 & <b>" "</p>"). reflexivity.
Defined.

Lemma rows_stay_anchored_witness :
  (exists r', nth_error (db (snd (@V1.dispatch sample unpaid_checkout quiet after_checkout)))
                0 = Some r'
              /\ checkout_session_id r' = checkout_session_id paid_row
              /\ created_at r' = created_at paid_row)
  /\ (exists r', nth_error (db (snd (@V2.dispatch sample true unpaid_checkout quiet
                                       after_checkout))) 0 = Some r'
                 /\ checkout_session_id r' = checkout_session_id paid_row
                 /\ created_at r' = created_at paid_row).
Proof.
  apply (@rows_stay_anchored sample true unpaid_checkout quiet after_checkout 0%nat
           paid_row).
  reflexivity.
Defined.

Lemma verified_event_never_mails_witness :
  exists added,
    fst (@V1.dispatch sample verified_vs_1 quiet empty_world) = inr server_error
    /\ log (snd (@V1.dispatch sample verified_vs_1 quiet empty_world))
       = log empty_world ++ added
    /\ existsb is_mail added = false
    /\ (db (snd (@V1.dispatch sample verified_vs_1 quiet empty_world)) = db empty_world
        \/ exists row,
             db (snd (@V1.dispatch sample verified_vs_1 quiet empty_world))
             = db empty_world ++ [row]
             /\ status row = Some "verified").
Proof.
  apply (@verified_event_never_mails sample quiet empty_world verified_vs_1 "vs_1");
    [reflexivity | reflexivity | discriminate].
Defined.

Lemma checkout_and_requires_input_only_write_witness :
  exists write,
    log (snd (@V1.dispatch sample paid_checkout quiet empty_world))
    = log empty_world ++ [SqlRun write]
    /\ ((fst (@V1.dispatch sample paid_checkout quiet empty_world) = inr received
         /\ insert_on_conflict true V1.do_update write (db empty_world)
            = Some (db (snd (@V1.dispatch sample paid_checkout quiet empty_world))))
        \/ (fst (@V1.dispatch sample paid_checkout quiet empty_world) = inr server_error
            /\ insert_on_conflict true V1.do_update write (db empty_world) = None
            /\ db (snd (@V1.dispatch sample paid_checkout quiet empty_world))
               = db empty_world)).
Proof.
  apply (@checkout_and_requires_input_only_write sample quiet empty_world paid_checkout);
    [left; reflexivity | reflexivity].
Defined.

Lemma event_without_object_witness :
  @V1.dispatch broken_platform checkout_without_object quiet empty_world
  = (inr server_error, empty_world)
  /\ @V2.dispatch broken_platform true checkout_without_object quiet empty_world
     = (inr server_error, empty_world)
  /\ @V3.webhook broken_platform signed_request quiet empty_world
     = (inl TypeError, empty_world).
Proof.
  destruct (@event_without_object broken_platform true signed_request quiet empty_world
              checkout_without_object (or_introl eq_refl) eq_refl) as (A & B & C).
  split; [exact A|]. split; [exact B|]. apply C; reflexivity.
Defined.

Lemma handler_rows_are_complete_witness :
  Forall complete
    (db (snd (deliver (@V1.dispatch sample)
                [(quiet, paid_checkout); (relay_down, verified_vs_1);
                 (quiet, requires_input_vs_1)]
                empty_world))).
Proof.
  apply (@handler_rows_are_complete sample
           [(quiet, paid_checkout); (relay_down, verified_vs_1);
            (quiet, requires_input_vs_1)] empty_world).
  constructor.
Defined.

Lemma upsert_refused_iff_witness :
  fst (@V1.upsert sample paid_cs_2_for_vs_1 quiet after_requires_input)
  = inl SQLITE_CONSTRAINT
  /\ db (snd (@V1.upsert sample paid_cs_2_for_vs_1 quiet after_requires_input))
     = db after_requires_input.
Proof.
  assert (W : well_keyed (db after_requires_input)) by (split; cbn; auto).
  destruct (@upsert_refused_iff sample paid_cs_2_for_vs_1 quiet after_requires_input W)
    as [_ R].
  destruct (R eq_refl) as (Refused & _ & Unchanged).
  split; [apply Refused|apply Unchanged];
    (eexists; split; [left; reflexivity|split; reflexivity]).
Defined.

Lemma deliver_well_keyed_witness :
  well_keyed
    (db (snd (deliver (@V1.dispatch sample)
                [(quiet, paid_checkout); (quiet, verified_vs_1); (quiet, verified_vs_1)]
                empty_world))).
Proof.
  apply (@deliver_well_keyed sample
           [(quiet, paid_checkout); (quiet, verified_vs_1); (quiet, verified_vs_1)]
           empty_world).
  split; exact I.
Defined.

Lemma checkout_redelivery_changes_nothing_witness :
  fst (@V1.dispatch sample paid_checkout relay_down after_checkout) = inr received
  /\ db (snd (@V1.dispatch sample paid_checkout relay_down after_checkout))
     = db after_checkout.
Proof.
  apply (@checkout_redelivery_changes_nothing sample quiet relay_down empty_world
           paid_checkout "cs_1");
    [reflexivity | reflexivity | discriminate | split; exact I | reflexivity].
Defined.

Lemma verified_without_email_is_acknowledged_witness :
  exists row,
    @V2.dispatch sample true verified_without_email quiet empty_world
    = (inr received,
       {| db := db empty_world ++ [row]; log := log empty_world ++ [SqlRun row] |})
    /\ status row = Some "verified"
    /\ verification_session_id row = Some "vs_3"
    /\ customer_email row = None.
Proof.
  apply (@verified_without_email_is_acknowledged sample true quiet empty_world
           verified_without_email "vs_3");
    [reflexivity | reflexivity | discriminate | reflexivity | right; reflexivity].
Defined.

Lemma requires_input_always_appends_witness :
  exists row,
    @V2.dispatch sample false requires_input_vs_1 quiet after_requires_input
    = (inr received,
       {| db := db after_requires_input ++ [row];
          log := log after_requires_input ++ [SqlRun row] |})
    /\ status row = Some "needs_input"
    /\ checkout_session_id row = None
    /\ verification_session_id row
       = @to_cell sample
           (Js.or (get (get (get requires_input_vs_1 "data") "object") "id") Null).
Proof.
  apply (@requires_input_always_appends sample quiet after_requires_input
           requires_input_vs_1);
    reflexivity.
Defined.






Lemma checkout_ids_stay_distinct_witness :
  distinct (map checkout_session_id
              (db (snd (@V3.webhook paid_platform signed_request quiet after_checkout)))).
Proof.
  apply (@checkout_ids_stay_distinct paid_platform signed_request quiet after_checkout).
  cbn. auto.
Defined.

Lemma verified_is_never_fulfilled_witness :
  exists first post second,
    @V1.dispatch sample verified_vs_1 quiet empty_world
    = (inr server_error,
       {| db := db empty_world ++ [first];
          log := log empty_world ++ [SqlRun first; post; SqlRun second] |})
    /\ status first = Some "verified"
    /\ status second = Some "fulfilled"
    /\ is_http post = true.
Proof.
  apply (@verified_is_never_fulfilled sample quiet empty_world verified_vs_1 "vs_1"
           (Obj [("product_url", Str "https://example.test/p")]));
    [reflexivity | reflexivity | discriminate | reflexivity | reflexivity].
Defined.

Lemma verified_with_email_never_finalizes_witness :
  exists first post second,
    is_http post = true
    /\ status first = Some "verified" /\ status second = Some "fulfilled"
    /\ verification_session_id first = Some "vs_1"
    /\ verification_session_id second = Some "vs_1"
    /\ exists mail,
         is_mail mail = true
         /\ @V2.dispatch sample false verified_vs_1 mail_down empty_world
            = (inr server_error,
               {| db := db empty_world ++ [first; second];
                  log := log empty_world ++ [SqlRun first; post; SqlRun second; mail] |}).
Proof.
  apply (@verified_with_email_never_finalizes sample false mail_down empty_world
           verified_vs_1 "vs_1" (Obj [("product_url", Str "https://example.test/p")]));
    [reflexivity | reflexivity | discriminate | reflexivity | left; reflexivity
    | reflexivity].
Defined.
